(** * A shallow embedding of [server.js]

    The Lambda entry point of the commerce backend: the dispatcher
    [handler], the token check [verifyToken] and the four operations
    [createProduct], [getAllProducts], [createOrder], [getAllOrders].

    JavaScript values are a tagged union, numbers are IEEE 754 binary64
    (the kernel's primitive floats), and the external collaborators
    (Cognito, DynamoDB, the uuid generator, the clock) live in an explicit
    [World] threaded through a state-and-exception monad.  Strings are
    sequences of 8-bit code units. *)

From Stdlib Require Import ZArith List String Ascii Bool Lia Floats.
Import ListNotations.
Open Scope string_scope.

(** ** JavaScript values *)

#[warnings="-register-all"]
Inductive value : Type :=
| VUndefined
| VNull
| VBool (b : bool)
| VNum (n : float)
| VStr (s : string)
| VArr (elems : list value)
| VObj (props : list (string * value)).

(** An [Error] object: its [name] and its [message]. *)
Record Exn : Type := mkExn { ename : string; emessage : string }.

Definition Error (msg : string) : Exn := mkExn "Error" msg.
Definition TypeError (msg : string) : Exn := mkExn "TypeError" msg.

(** [Error.prototype.toString], which string concatenation applies to an
    error object. *)
Definition ExnToString (e : Exn) : string :=
  if String.eqb (ename e) "" then emessage e
  else if String.eqb (emessage e) "" then ename e
  else ename e ++ ": " ++ emessage e.

(** ** The language runtime

    [JSON.parse], [JSON.stringify] and the conversions between numbers and
    strings belong to the JavaScript engine, not to the repository.  The
    development is parametric in them; [RefRuntime] below implements them
    so that the model runs on concrete requests. *)

Record Runtime : Type := mkRuntime {
  JSON_parse : string -> Exn + value;
  JSON_stringify : value -> string;
  StringToNumber : string -> float;
  NumberToString : float -> string
}.

Fixpoint lookup {A : Type} (k : string) (l : list (string * A)) : option A :=
  match l with
  | [] => None
  | (k', v) :: rest => if String.eqb k k' then Some v else lookup k rest
  end.

Fixpoint join (sep : string) (l : list string) : string :=
  match l with
  | [] => ""
  | [s] => s
  | s :: rest => s ++ sep ++ join sep rest
  end.

(** A pure step that may throw, followed by another. *)
Definition and_then {A B : Type} (r : Exn + A) (k : A -> Exn + B) : Exn + B :=
  match r with
  | inl e => inl e
  | inr a => k a
  end.

Declare Scope throwing_scope.
Delimit Scope throwing_scope with throwing.
Notation "'let?' x ':=' r 'in' k" := (and_then r (fun x => k))
  (at level 10, x name, r at level 200, k at level 200) : throwing_scope.
Open Scope throwing_scope.

(** The exception of a conversion to a primitive that finds no method to
    call. *)
Definition cannot_convert : Exn :=
  TypeError "Cannot convert object to primitive value".

(** An object has an own property [key]. *)
Definition has_own (key : string) (props : list (string * value)) : bool :=
  match lookup key props with
  | Some _ => true
  | None => false
  end.

Section Coercions.

Context (rt : Runtime).

(** [ToBoolean]: the falsy values are [undefined], [null], [false], [0],
    [-0], [NaN] and the empty string. *)
Definition ToBoolean (v : value) : bool :=
  match v with
  | VUndefined | VNull => false
  | VBool b => b
  | VNum n => negb (PrimFloat.is_zero n || PrimFloat.is_nan n)
  | VStr s => negb (String.eqb s "")
  | VArr _ | VObj _ => true
  end.

(** [ToString].  The values are those of [JSON.parse], so a property of
    an object is data and never a function.  The conversion of an object
    looks up [toString], then [valueOf]: an own [toString] hides the
    inherited method and cannot be called, [valueOf], own or inherited,
    gives no primitive, and the conversion throws; without an own
    [toString] the inherited one answers [[object Object]].  An array
    joins its elements with a comma, from left to right, [null] and
    [undefined] elements giving the empty string ([Array.prototype.join]). *)
Fixpoint ToString (v : value) : Exn + string :=
  match v with
  | VUndefined => inr "undefined"
  | VNull => inr "null"
  | VBool true => inr "true"
  | VBool false => inr "false"
  | VNum n => inr (NumberToString rt n)
  | VStr s => inr s
  | VArr elems =>
      (fix join_elements (l : list value) : Exn + string :=
         match l with
         | [] => inr ""
         | e :: rest =>
             let? s := match e with
                       | VUndefined | VNull => inr ""
                       | _ => ToString e
                       end in
             match rest with
             | [] => inr s
             | _ :: _ => let? t := join_elements rest in inr (s ++ "," ++ t)
             end
         end) elems
  | VObj props =>
      if has_own "toString" props then inl cannot_convert else inr "[object Object]"
  end.

(** [ToPrimitive].  With the hint number the methods are looked up the
    other way round, [valueOf] first; as [valueOf] gives no primitive on
    these values, the outcome is that of [toString] for either hint. *)
Definition ToPrimitive (v : value) : Exn + value :=
  match v with
  | VArr _ | VObj _ => let? s := ToString v in inr (VStr s)
  | _ => inr v
  end.

(** [ToNumber] of a primitive. *)
Definition primitive_ToNumber (p : value) : float :=
  match p with
  | VUndefined => PrimFloat.nan
  | VNull => PrimFloat.zero
  | VBool true => PrimFloat.one
  | VBool false => PrimFloat.zero
  | VNum n => n
  | VStr s => StringToNumber rt s
  | VArr _ | VObj _ => PrimFloat.nan
  end.

Definition ToNumber (v : value) : Exn + float :=
  let? p := ToPrimitive v in inr (primitive_ToNumber p).

(** [v <= n] for a number [n]: the left side goes through [ToPrimitive]
    and [ToNumber], and a comparison with [NaN] is false. *)
Definition js_le_num (v : value) (n : float) : Exn + bool :=
  let? x := ToNumber v in inr (PrimFloat.leb x n).

(** [a * b]: the left operand is converted first. *)
Definition js_mul (a b : value) : Exn + value :=
  let? x := ToNumber a in
  let? y := ToNumber b in
  inr (VNum (PrimFloat.mul x y)).

(** [a || b]. *)
Definition js_or (a b : value) : value :=
  if ToBoolean a then a else b.

End Coercions.

(** [v.key] for the keys this program reads ([items], [id], [quantity],
    [price], [name], [description], [imageUrl]); none of them is defined on
    a built-in prototype, so only an own property of an object yields a
    value.  Reading a property of [null] or [undefined] throws. *)
Definition get_prop (v : value) (key : string) : Exn + value :=
  match v with
  | VUndefined =>
      inl (TypeError ("Cannot read properties of undefined (reading '" ++ key ++ "')"))
  | VNull =>
      inl (TypeError ("Cannot read properties of null (reading '" ++ key ++ "')"))
  | VObj props => inr (match lookup key props with Some x => x | None => VUndefined end)
  | _ => inr VUndefined
  end.

Definition isArray (v : value) : bool :=
  match v with VArr _ => true | _ => false end.

Definition is_nullish (v : value) : bool :=
  match v with VUndefined | VNull => true | _ => false end.

(** The elements of an array, and [items.length] on an array. *)
Definition elements (v : value) : list value :=
  match v with VArr elems => elems | _ => [] end.

Definition array_length (v : value) : nat := List.length (elements v).

(** ** The collaborators

    The program talks to Cognito ([getUser]), to DynamoDB ([put], [scan]),
    to the uuid generator and to the clock.  A [World] fixes how each of
    them answers and records every call made to Cognito and DynamoDB. *)

Record User : Type := mkUser { Username : string }.

Inductive Call : Type :=
| CallGetUser (AccessToken : string)
| CallPut (TableName : string) (Item : value)
| CallScan (TableName : string).

Record World : Type := mkWorld {
  cognito_getUser : string -> Exn + User;
  dynamo_put_rejects : string -> value -> option Exn;
  dynamo_scan_rejects : string -> option Exn;
  tables : string -> list value;
  uuid_source : nat -> string;
  clock : nat -> string;
  uuids_drawn : nat;
  clock_reads : nat;
  calls : list Call
}.

(** ** Computations: state passing with exceptions *)

Inductive Outcome (A : Type) : Type :=
| Returned (a : A)
| Thrown (e : Exn).

Arguments Returned {A} a.
Arguments Thrown {A} e.

Definition M (A : Type) : Type := World -> Outcome A * World.

Definition ret {A : Type} (a : A) : M A := fun w => (Returned a, w).

Definition throw {A : Type} (e : Exn) : M A := fun w => (Thrown e, w).

Definition bind {A B : Type} (m : M A) (k : A -> M B) : M B :=
  fun w => match m w with
           | (Returned a, w') => k a w'
           | (Thrown e, w') => (Thrown e, w')
           end.

(** [try { m } catch (error) { h error }]. *)
Definition try_catch {A : Type} (m : M A) (h : Exn -> M A) : M A :=
  fun w => match m w with
           | (Returned a, w') => (Returned a, w')
           | (Thrown e, w') => h e w'
           end.

(** A pure step that may throw. *)
Definition lift {A : Type} (r : Exn + A) : M A :=
  match r with inl e => throw e | inr a => ret a end.

Declare Scope js_scope.
Delimit Scope js_scope with js.
Notation "'let*' x ':=' m 'in' k" := (bind m (fun x => k))
  (at level 10, x name, m at level 200, k at level 200) : js_scope.
Open Scope js_scope.

Definition log (c : Call) (w : World) : World :=
  mkWorld (cognito_getUser w) (dynamo_put_rejects w) (dynamo_scan_rejects w)
          (tables w) (uuid_source w) (clock w) (uuids_drawn w) (clock_reads w)
          (c :: calls w).

Definition store (t : string) (item : value) (w : World) : World :=
  mkWorld (cognito_getUser w) (dynamo_put_rejects w) (dynamo_scan_rejects w)
          (fun t' => if String.eqb t' t then (tables w t ++ [item])%list else tables w t')
          (uuid_source w) (clock w) (uuids_drawn w) (clock_reads w) (calls w).

(** [cognitoIdentityServiceProvider.getUser({AccessToken}).promise()], awaited. *)
Definition getUser (token : string) : M User :=
  fun w => let w' := log (CallGetUser token) w in
           match cognito_getUser w token with
           | inl e => (Thrown e, w')
           | inr u => (Returned u, w')
           end.

(** Modelled from the spec: the record store, an external collaborator
    with [put(collection, record) -> success | failure] and
    [scanAll(collection) -> sequence of record] that applies no business
    logic.  A put that is not rejected adds the record to its collection;
    a scan that is not rejected returns the collection's records. *)
Definition dynamoDb_put (t : string) (item : value) : M unit :=
  fun w => let w' := log (CallPut t item) w in
           match dynamo_put_rejects w t item with
           | Some e => (Thrown e, w')
           | None => (Returned tt, store t item w')
           end.

Definition dynamoDb_scan (t : string) : M (list value) :=
  fun w => let w' := log (CallScan t) w in
           match dynamo_scan_rejects w t with
           | Some e => (Thrown e, w')
           | None => (Returned (tables w t), w')
           end.

Definition draw_uuid (w : World) : World :=
  mkWorld (cognito_getUser w) (dynamo_put_rejects w) (dynamo_scan_rejects w)
          (tables w) (uuid_source w) (clock w) (S (uuids_drawn w)) (clock_reads w)
          (calls w).

Definition read_clock (w : World) : World :=
  mkWorld (cognito_getUser w) (dynamo_put_rejects w) (dynamo_scan_rejects w)
          (tables w) (uuid_source w) (clock w) (uuids_drawn w) (S (clock_reads w))
          (calls w).

(** [uuidv4()]. *)
Definition uuidv4 : M string :=
  fun w => (Returned (uuid_source w (uuids_drawn w)), draw_uuid w).

(** [new Date().toISOString()]. *)
Definition now_ISOString : M string :=
  fun w => (Returned (clock w (clock_reads w)), read_clock w).

(** ** Requests and responses *)

(** The REST API proxy event: the fields the program reads.  [headers] is
    [null] or a map from header names to strings; [body] is [null] or a
    string. *)
Module Event.
Record t : Type := mk {
  httpMethod : string;
  resource : string;
  path : string;
  headers : option (list (string * string));
  body : option string
}.
End Event.

Module Response.
Record t : Type := mk {
  statusCode : Z;
  headers : list (string * value);
  body : string
}.
End Response.

Definition PRODUCT_TABLE_NAME : string := "Product".
Definition ORDER_TABLE_NAME : string := "Order".

(** CORS headers configuration. *)
Definition headers : list (string * value) :=
  [ ("Access-Control-Allow-Origin", VStr "*");
    ("Access-Control-Allow-Credentials", VBool true);
    ("Content-Type", VStr "application/json") ].

(** The headers of the preflight answer: the spread of [headers] followed
    by the two keys it adds. *)
Definition preflight_headers : list (string * value) :=
  (headers ++
   [ ("Access-Control-Allow-Methods", VStr "GET,POST,PUT,DELETE,OPTIONS");
     ("Access-Control-Allow-Headers",
      VStr "Content-Type,X-Amz-Date,Authorization,X-Api-Key,X-Amz-Security-Token") ])%list.

(** [JSON.parse] converts its argument to a string first: a [null] body
    is parsed as the text [null]. *)
Definition body_text (event : Event.t) : string :=
  match Event.body event with
  | Some s => s
  | None => "null"
  end.

(** [const { key } = v]: destructuring [null] or [undefined] throws. *)
Definition destructure (v : value) (key : string) : Exn + value :=
  match v with
  | VUndefined =>
      inl (TypeError ("Cannot destructure property '" ++ key ++ "' of 'body' as it is undefined."))
  | VNull =>
      inl (TypeError ("Cannot destructure property '" ++ key ++ "' of 'body' as it is null."))
  | _ => get_prop v key
  end.

(** [event.headers?.key]: [None] stands for [undefined]. *)
Definition optional_header (event : Event.t) (key : string) : option string :=
  match Event.headers event with
  | None => None
  | Some hs => lookup key hs
  end.

Definition truthy_header (h : option string) : bool :=
  match h with
  | Some s => negb (String.eqb s "")
  | None => false
  end.

(** [event.headers?.Authorization || event.headers?.authorization]. *)
Definition authHeader_of (event : Event.t) : option string :=
  let a := optional_header event "Authorization" in
  if truthy_header a then a else optional_header event "authorization".

Definition startsWith (s pre : string) : bool := String.prefix pre s.

(** *** [authHeader.replace(/^Bearer\s+/i, '')] *)

(** The class [\s] on 8-bit code units: tab, line feed, vertical tab, form
    feed, carriage return, space and the no-break space. *)
Definition is_space (c : ascii) : bool :=
  let n := nat_of_ascii c in
  (Nat.leb 9 n && Nat.leb n 13) || Nat.eqb n 32 || Nat.eqb n 160.

(** Case folding of the [i] flag on the letters of the pattern. *)
Definition upcase (c : ascii) : ascii :=
  let n := nat_of_ascii c in
  if Nat.leb 97 n && Nat.leb n 122 then ascii_of_nat (n - 32) else c.

(** The rest of [s] after a case-insensitive match of the literal [pat]
    at its start. *)
Fixpoint match_ci (pat s : string) : option string :=
  match pat, s with
  | EmptyString, _ => Some s
  | String p pat', String c s' =>
      if Ascii.eqb (upcase p) (upcase c) then match_ci pat' s' else None
  | String _ _, EmptyString => None
  end.

Fixpoint drop_spaces (s : string) : string :=
  match s with
  | String c s' => if is_space c then drop_spaces s' else s
  | EmptyString => s
  end.

Definition strip_bearer (s : string) : string :=
  match match_ci "Bearer" s with
  | Some (String c rest) => if is_space c then drop_spaces rest else s
  | _ => s
  end.

(** A body of the shape [{ error }] or [{ error, details }]. *)
Definition error_body (msg : string) : value := VObj [("error", VStr msg)].

Definition error_details_body (msg details : string) : value :=
  VObj [("error", VStr msg); ("details", VStr details)].

(** ** The program *)

Section Program.

Context (rt : Runtime).

Definition respond (status : Z) (b : value) : Response.t :=
  Response.mk status headers (JSON_stringify rt b).

(** Helper function to verify Cognito token. *)
Definition verifyToken (token : string) : M User :=
  try_catch
    (if negb (ToBoolean (VStr token)) then throw (Error "No token provided")
     else let* user := getUser token in ret user)
    (fun error => throw (Error ("Invalid token: " ++ ExnToString error))).

(** Create Product. *)
Definition productItem_of (id name : string) (price : float) (description : string)
    (imageUrl : value) (createdAt : string) : value :=
  VObj [ ("id", VStr id);
         ("name", VStr name);
         ("price", VNum price);
         ("description", VStr description);
         ("imageUrl", imageUrl);
         ("createdAt", VStr createdAt) ].

(** [imageUrl ? String(imageUrl) : null]. *)
Definition imageUrl_of (imageUrl : value) : Exn + value :=
  if ToBoolean imageUrl then let? s := ToString rt imageUrl in inr (VStr s)
  else inr VNull.

Definition createProduct (event : Event.t) : M Response.t :=
  let* body := lift (JSON_parse rt (body_text event)) in
  let* name := lift (destructure body "name") in
  let* price := lift (destructure body "price") in
  let* description := lift (destructure body "description") in
  let* imageUrl := lift (destructure body "imageUrl") in
  if negb (ToBoolean name) || negb (ToBoolean price) || negb (ToBoolean description)
  then ret (respond 400 (error_body "Missing name, price, or description"))
  else
    let* id := uuidv4 in
    let* name' := lift (ToString rt name) in
    let* price' := lift (ToNumber rt price) in
    let* description' := lift (ToString rt description) in
    let* imageUrl' := lift (imageUrl_of imageUrl) in
    let* createdAt := now_ISOString in
    let productItem := productItem_of id name' price' description' imageUrl' createdAt in
    let* _ := dynamoDb_put PRODUCT_TABLE_NAME productItem in
    ret (respond 201 productItem).

(** Get All Products. *)
Definition getAllProducts : M Response.t :=
  let* Items := dynamoDb_scan PRODUCT_TABLE_NAME in
  ret (respond 200 (VArr Items)).

(** The test of the validation loop on one element:
    [!item.id || !item.quantity || item.quantity <= 0]. *)
Definition item_rejected (item : value) : Exn + bool :=
  let? id := get_prop item "id" in
  if negb (ToBoolean id) then inr true
  else
    let? quantity := get_prop item "quantity" in
    if negb (ToBoolean quantity) then inr true
    else js_le_num rt quantity PrimFloat.zero.

(** The loop [for (const item of items)]: [Some r] when its body returns
    [r], [None] when it runs to the end. *)
Fixpoint validate_items (items : list value) : M (option Response.t) :=
  match items with
  | [] => ret None
  | item :: rest =>
      let* bad := lift (item_rejected item) in
      if bad
      then ret (Some (respond 400
                        (error_body "Each item must have productId and positive quantity")))
      else validate_items rest
  end.

(** The record of one line item. *)
Definition lineItem_of (id : string) (quantity price totalPrice : float) : value :=
  VObj [ ("id", VStr id);
         ("quantity", VNum quantity);
         ("price", VNum price);
         ("totalPrice", VNum totalPrice) ].

(** The callback of [items.map]: the four properties are computed in the
    order they are written. *)
Definition normalize_item (item : value) : Exn + value :=
  let? id := get_prop item "id" in
  let? id' := ToString rt id in
  let? quantity := get_prop item "quantity" in
  let? quantity' := ToNumber rt quantity in
  let? price := get_prop item "price" in
  let? price' := ToNumber rt (js_or price (VNum PrimFloat.zero)) in
  let? product := js_mul rt (js_or price (VNum PrimFloat.zero)) quantity in
  let? totalPrice := ToNumber rt product in
  inr (lineItem_of id' quantity' price' totalPrice).

Fixpoint map_items (items : list value) : M (list value) :=
  match items with
  | [] => ret []
  | item :: rest =>
      let* r := lift (normalize_item item) in
      let* rs := map_items rest in
      ret (r :: rs)
  end.

Definition orderItem_of (id username : string) (items : list value) (createdAt : string)
    : value :=
  VObj [ ("id", VStr id);
         ("userId", VStr username);
         ("items", VArr items);
         ("createdAt", VStr createdAt);
         ("status", VStr "pending") ].

(** The [try] block of [createOrder]. *)
Definition createOrder_try (event : Event.t) (token : string) : M Response.t :=
  let* user := verifyToken token in
  let username := Username user in
  let* body := lift (JSON_parse rt (body_text event)) in
  let* items := lift (destructure body "items") in
  if negb (ToBoolean items) || negb (isArray items) || Nat.eqb (array_length items) 0
  then ret (respond 400 (error_body "Items array is required"))
  else
    let* early := validate_items (elements items) in
    match early with
    | Some r => ret r
    | None =>
        let* id := uuidv4 in
        let* normalized := map_items (elements items) in
        let* createdAt := now_ISOString in
        let orderItem := orderItem_of id username normalized createdAt in
        let* _ := dynamoDb_put ORDER_TABLE_NAME orderItem in
        ret (respond 201 orderItem)
    end.

(** Create Order. *)
Definition createOrder (event : Event.t) : M Response.t :=
  match authHeader_of event with
  | Some authHeader =>
      if negb (startsWith authHeader "Bearer ")
      then ret (respond 401 (error_body "Authorization token required"))
      else
        let token := strip_bearer authHeader in
        try_catch (createOrder_try event token)
          (fun error =>
             ret (respond 401 (error_details_body "Unauthorized" (emessage error))))
  | None => ret (respond 401 (error_body "Authorization token required"))
  end.

(** Get All Orders. *)
Definition getAllOrders : M Response.t :=
  let* Items := dynamoDb_scan ORDER_TABLE_NAME in
  ret (respond 200 (VArr Items)).

(** The Lambda entry point. *)
Definition handler (event : Event.t) : M Response.t :=
  try_catch
    (if String.eqb (Event.httpMethod event) "OPTIONS"
     then ret (Response.mk 200 preflight_headers (JSON_stringify rt (VObj [])))
     else
       let httpMethod := Event.httpMethod event in
       let resourcePath := Event.resource event in
       if String.eqb httpMethod "POST" && String.eqb resourcePath "/products"
       then createProduct event
       else if String.eqb httpMethod "GET" && String.eqb resourcePath "/products"
       then getAllProducts
       else if String.eqb httpMethod "POST" && String.eqb resourcePath "/orders"
       then createOrder event
       else if String.eqb httpMethod "GET" && String.eqb resourcePath "/orders"
       then getAllOrders
       else ret (respond 404 (error_body "Not found")))
    (fun error =>
       ret (respond 500 (error_details_body "Internal server error" (emessage error)))).

End Program.

(** ** A reference runtime

    An implementation of the four runtime functions after ECMAScript, on
    strings of 8-bit code units: correctly rounded decimal-to-binary64
    conversion, shortest round-trip number printing, and the JSON grammar.
    The theorems below hold for every [Runtime]; this one runs the model
    on concrete requests. *)

Module RefRuntime.

(** The float nearest to [n / d] for positive [n] and [d], ties to even. *)
Definition round_ratio (n d : Z) : float :=
  let e0 := (Z.log2 n - Z.log2 d)%Z in
  let ge := if (0 <=? e0)%Z then (Z.shiftl d e0 <=? n)%Z else (d <=? Z.shiftl n (- e0))%Z in
  let E := if ge then e0 else (e0 - 1)%Z in
  let e := Z.max (E - 52) (-1074) in
  let num := if (0 <=? e)%Z then n else Z.shiftl n (- e) in
  let den := if (0 <=? e)%Z then Z.shiftl d e else d in
  let q := (num / den)%Z in
  let r := (num mod den)%Z in
  let up := (den <? 2 * r)%Z || ((den =? 2 * r)%Z && Z.odd q) in
  match (if up then q + 1 else q)%Z with
  | Zpos m => SF2Prim (S754_finite false m e)
  | _ => PrimFloat.zero
  end.


Definition decimal_to_float (mant exp10 : Z) : float :=
  if (mant <=? 0)%Z then PrimFloat.zero
  else if (0 <=? exp10)%Z then round_ratio (mant * 10 ^ exp10) 1
  else round_ratio mant (10 ^ (- exp10)).

Definition digit_of (base : Z) (c : ascii) : option Z :=
  let n := Z.of_nat (nat_of_ascii c) in
  let d := if (48 <=? n)%Z && (n <=? 57)%Z then (n - 48)%Z
           else if (97 <=? n)%Z && (n <=? 102)%Z then (n - 87)%Z
           else if (65 <=? n)%Z && (n <=? 70)%Z then (n - 55)%Z
           else 99%Z in
  if (d <? base)%Z then Some d else None.

(** Reads digits of [base] from the start of [s] onto [acc]: the value,
    the number of digits read, the rest. *)
Fixpoint read_digits (base : Z) (s : string) (acc count : Z) : Z * Z * string :=
  match s with
  | String c s' =>
      match digit_of base c with
      | Some d => read_digits base s' (acc * base + d)%Z (count + 1)%Z
      | None => (acc, count, s)
      end
  | EmptyString => (acc, count, s)
  end.

(** An optional sign: [true] for minus. *)
Definition read_sign (s : string) : bool * string :=
  match s with
  | String "-" s' => (true, s')
  | String "+" s' => (false, s')
  | _ => (false, s)
  end.

Record Decimal : Type := mkDecimal {
  int_digits : Z;
  frac_digits : Z;
  has_point : bool;
  mantissa : Z;
  exponent10 : option Z;
  rest : string
}.

(** Scans [digits? (. digits?)? ([eE] sign? digits)?]; an [e] that no digit
    follows is left in the rest. *)
Definition scan_decimal (s : string) : Decimal :=
  let '(i, ni, r1) := read_digits 10 s 0 0 in
  let '(m, nf, point, r2) :=
    match r1 with
    | String "." r =>
        let '(m, nf, r') := read_digits 10 r i 0 in (m, nf, true, r')
    | _ => (i, 0%Z, false, r1)
    end in
  let '(ex, r3) :=
    match r2 with
    | String c r =>
        if Ascii.eqb c "e" || Ascii.eqb c "E" then
          let '(neg, r') := read_sign r in
          let '(x, nx, r4) := read_digits 10 r' 0 0 in
          if (0 <? nx)%Z then (Some (if neg then (- x)%Z else x), r4) else (None, r2)
        else (None, r2)
    | EmptyString => (None, r2)
    end in
  mkDecimal ni nf point m ex r3.

Definition decimal_value (d : Decimal) : float :=
  decimal_to_float (mantissa d)
    ((match exponent10 d with Some x => x | None => 0 end) - frac_digits d).

(** White space and line terminators among the 8-bit code units. *)
Definition is_str_space (c : ascii) : bool :=
  let n := nat_of_ascii c in
  (Nat.leb 9 n && Nat.leb n 13) || Nat.eqb n 32 || Nat.eqb n 160.

Fixpoint trim_left (s : string) : string :=
  match s with
  | String c s' => if is_str_space c then trim_left s' else s
  | EmptyString => s
  end.

Fixpoint rev_string (s acc : string) : string :=
  match s with
  | String c s' => rev_string s' (String c acc)
  | EmptyString => acc
  end.

Definition trim (s : string) : string :=
  rev_string (trim_left (rev_string (trim_left s) "")) "".

Definition radix_literal (base : Z) (digits : string) : float :=
  let '(v, n, r) := read_digits base digits 0 0 in
  if (0 <? n)%Z && String.eqb r "" then decimal_to_float v 0 else PrimFloat.nan.

(** [StringToNumber] of ECMAScript: the value of a string numeric literal,
    [NaN] for any other text. *)
Definition StringToNumber (text : string) : float :=
  let s := trim text in
  match s with
  | EmptyString => PrimFloat.zero
  | String "0" (String "x" r) | String "0" (String "X" r) => radix_literal 16 r
  | String "0" (String "o" r) | String "0" (String "O" r) => radix_literal 8 r
  | String "0" (String "b" r) | String "0" (String "B" r) => radix_literal 2 r
  | _ =>
      let '(neg, body) := read_sign s in
      let magnitude :=
        if String.eqb body "Infinity" then PrimFloat.infinity
        else
          let d := scan_decimal body in
          if (0 <? int_digits d + frac_digits d)%Z && String.eqb (rest d) ""
          then decimal_value d else PrimFloat.nan in
      if neg then PrimFloat.opp magnitude else magnitude
  end.

(** *** Number to string *)

Fixpoint digits_of_pos (fuel : nat) (n : Z) (acc : string) : string :=
  match fuel with
  | O => acc
  | S fuel' =>
      let acc' := String (ascii_of_nat (48 + Z.to_nat (n mod 10))) acc in
      if (n <? 10)%Z then acc' else digits_of_pos fuel' (n / 10)%Z acc'
  end.

(** The decimal digits of a natural number. *)
Definition digits_of (n : Z) : string :=
  digits_of_pos (S (Z.to_nat (Z.log2 n))) n "".

Fixpoint zeros (n : nat) : string :=
  match n with O => "" | S n' => String "0" (zeros n') end.

(** The integer nearest to [n / d], ties to even. *)
Definition nearest (n d : Z) : Z :=
  let q := (n / d)%Z in
  let r := (n mod d)%Z in
  if (d <? 2 * r)%Z || ((d =? 2 * r)%Z && Z.odd q) then (q + 1)%Z else q.

(** [k] with [10^(k-1) <= n / d < 10^k], starting from an estimate that is
    at most one off. *)
Definition decimal_exponent (n d : Z) : Z :=
  let below k := if (0 <=? k)%Z then (n <? d * 10 ^ k)%Z else (n * 10 ^ (- k) <? d)%Z in
  let k0 := ((Z.log2 n - Z.log2 d) * 30103 / 100000)%Z in
  if below (k0 - 1)%Z then (k0 - 1)%Z
  else if below k0 then k0
  else if below (k0 + 1)%Z then (k0 + 1)%Z
  else (k0 + 2)%Z.

(** The digits [s] and the exponent [k] of the shortest decimal that
    rounds to the float of value [n / d]. *)
Fixpoint shortest (fuel : nat) (len : Z) (x : float) (n d k : Z) : Z * Z :=
  let scale := (k - len)%Z in
  let s := if (0 <=? scale)%Z then nearest n (d * 10 ^ scale)
           else nearest (n * 10 ^ (- scale)) d in
  let '(s, k') := if (s =? 10 ^ len)%Z then (10 ^ (len - 1), k + 1)%Z else (s, k) in
  match fuel with
  | O => (s, k')
  | S fuel' =>
      if PrimFloat.eqb (decimal_to_float s (k' - len)) x then (s, k')
      else shortest fuel' (len + 1)%Z x n d k
  end.

Definition format_digits (digits : string) (k : Z) : string :=
  let n := Z.of_nat (String.length digits) in
  if (n <=? k)%Z && (k <=? 21)%Z then digits ++ zeros (Z.to_nat (k - n))
  else if (0 <? k)%Z && (k <=? 21)%Z
  then substring 0 (Z.to_nat k) digits ++ "."
       ++ substring (Z.to_nat k) (Z.to_nat (n - k)) digits
  else if (-6 <? k)%Z && (k <=? 0)%Z then "0." ++ zeros (Z.to_nat (- k)) ++ digits
  else
    let e := (k - 1)%Z in
    let etext := (if (e <? 0)%Z then "-" else "+") ++ digits_of (Z.abs e) in
    match digits with
    | String c EmptyString => String c ("e" ++ etext)
    | String c more => String c ("." ++ more ++ "e" ++ etext)
    | EmptyString => ""
    end.

(** [Number::toString] of ECMAScript, radix 10. *)
Definition NumberToString (x : float) : string :=
  match Prim2SF x with
  | S754_nan => "NaN"
  | S754_zero _ => "0"
  | S754_infinity false => "Infinity"
  | S754_infinity true => "-Infinity"
  | S754_finite neg m e =>
      let n := if (0 <=? e)%Z then Z.shiftl (Zpos m) e else Zpos m in
      let d := if (0 <=? e)%Z then 1%Z else Z.shiftl 1 (- e) in
      let '(s, k) := shortest 17 1 (PrimFloat.abs x) n d (decimal_exponent n d) in
      (if neg then "-" else "") ++ format_digits (digits_of s) k
  end.


(** *** JSON *)

Definition dquote : ascii := ascii_of_nat 34.
Definition backslash : ascii := ascii_of_nat 92.

(** The exception of [JSON.parse].  The wording of its message differs
    from engine to engine; two fixed messages are used here. *)
Definition SyntaxError (msg : string) : Exn := mkExn "SyntaxError" msg.

Definition is_json_space (c : ascii) : bool :=
  let n := nat_of_ascii c in
  Nat.eqb n 9 || Nat.eqb n 10 || Nat.eqb n 13 || Nat.eqb n 32.

Fixpoint skip_ws (s : string) : string :=
  match s with
  | String c s' => if is_json_space c then skip_ws s' else s
  | EmptyString => s
  end.

(** The code unit an escape letter stands for. *)
Definition escape_code (c : ascii) : option ascii :=
  if Ascii.eqb c dquote || Ascii.eqb c backslash || Ascii.eqb c "/" then Some c
  else if Ascii.eqb c "b" then Some (ascii_of_nat 8)
  else if Ascii.eqb c "f" then Some (ascii_of_nat 12)
  else if Ascii.eqb c "n" then Some (ascii_of_nat 10)
  else if Ascii.eqb c "r" then Some (ascii_of_nat 13)
  else if Ascii.eqb c "t" then Some (ascii_of_nat 9)
  else None.

(** The characters of a string literal after its opening quote, up to the
    closing one; [acc] holds what was read, latest first.  A [\u] escape
    must name a code unit below 256. *)
Fixpoint parse_chars (fuel : nat) (s acc : string) : option (string * string) :=
  match fuel, s with
  | S fuel', String c r =>
      if Ascii.eqb c dquote then Some (rev_string acc "", r)
      else if Ascii.eqb c backslash then
        match r with
        | String "u" r' =>
            let '(code, n, _) := read_digits 16 (substring 0 4 r') 0 0 in
            if (n =? 4)%Z && (code <? 256)%Z
            then parse_chars fuel' (substring 4 (String.length r' - 4) r')
                             (String (ascii_of_nat (Z.to_nat code)) acc)
            else None
        | String e r' =>
            match escape_code e with
            | Some x => parse_chars fuel' r' (String x acc)
            | None => None
            end
        | EmptyString => None
        end
      else if Nat.ltb (nat_of_ascii c) 32 then None
      else parse_chars fuel' r (String c acc)
  | _, _ => None
  end.

(** A JSON number at the start of [s]. *)
Definition parse_number (s : string) : option (value * string) :=
  let '(neg, body) := match s with String "-" r => (true, r) | _ => (false, s) end in
  let d := scan_decimal body in
  let leading_zero :=
    match body with String "0" _ => (1 <? int_digits d)%Z | _ => false end in
  if (0 <? int_digits d)%Z && negb leading_zero
     && (negb (has_point d) || (0 <? frac_digits d)%Z)
  then Some (VNum (if neg then PrimFloat.opp (decimal_value d) else decimal_value d), rest d)
  else None.

(** Sets an own property: a repeated key keeps its place and takes the
    later value. *)
Fixpoint set_prop (k : string) (v : value) (props : list (string * value))
    : list (string * value) :=
  match props with
  | [] => [(k, v)]
  | (k', v') :: more =>
      if String.eqb k k' then (k, v) :: more else (k', v') :: set_prop k v more
  end.

Definition literal (word : string) (v : value) (s : string) : option (value * string) :=
  if String.prefix word s
  then Some (v, substring (String.length word) (String.length s - String.length word) s)
  else None.

Fixpoint parse_value (fuel : nat) (s : string) : option (value * string) :=
  match fuel with
  | O => None
  | S fuel' =>
      match skip_ws s with
      | String "{" r =>
          match skip_ws r with
          | String "}" r' => Some (VObj [], r')
          | r' => parse_members fuel' r' []
          end
      | String "[" r =>
          match skip_ws r with
          | String "]" r' => Some (VArr [], r')
          | r' => parse_elements fuel' r' []
          end
      | String "t" _ as t => literal "true" (VBool true) t
      | String "f" _ as t => literal "false" (VBool false) t
      | String "n" _ as t => literal "null" VNull t
      | String c r as t =>
          if Ascii.eqb c dquote then
            match parse_chars (String.length r) r "" with
            | Some (text, r') => Some (VStr text, r')
            | None => None
            end
          else parse_number t
      | EmptyString => None
      end
  end

with parse_elements (fuel : nat) (s : string) (acc : list value) : option (value * string) :=
  match fuel with
  | O => None
  | S fuel' =>
      match parse_value fuel' s with
      | Some (v, r) =>
          match skip_ws r with
          | String "," r' => parse_elements fuel' r' (v :: acc)
          | String "]" r' => Some (VArr (List.rev (v :: acc)), r')
          | _ => None
          end
      | None => None
      end
  end

with parse_members (fuel : nat) (s : string) (acc : list (string * value))
    : option (value * string) :=
  match fuel with
  | O => None
  | S fuel' =>
      match skip_ws s with
      | String c r =>
          if Ascii.eqb c dquote then
            match parse_chars (String.length r) r "" with
            | Some (key, r1) =>
                match skip_ws r1 with
                | String ":" r2 =>
                    match parse_value fuel' r2 with
                    | Some (v, r3) =>
                        match skip_ws r3 with
                        | String "," r4 => parse_members fuel' r4 (set_prop key v acc)
                        | String "}" r4 => Some (VObj (set_prop key v acc), r4)
                        | _ => None
                        end
                    | None => None
                    end
                | _ => None
                end
            | None => None
            end
          else None
      | EmptyString => None
      end
  end.

(** [JSON.parse]: one value, white space around it, nothing else. *)
Definition JSON_parse (text : string) : Exn + value :=
  match parse_value (2 * String.length text + 2) text with
  | Some (v, r) =>
      if String.eqb (skip_ws r) "" then inr v
      else inl (SyntaxError "Unexpected non-whitespace character after JSON")
  | None => inl (SyntaxError "Unexpected token in JSON")
  end.

Definition hex_digit (n : nat) : ascii :=
  ascii_of_nat (if Nat.ltb n 10 then 48 + n else 87 + n).

(** [QuoteJSONString] without its enclosing quotes. *)
Fixpoint escape_chars (s : string) : string :=
  match s with
  | EmptyString => ""
  | String c r =>
      let n := nat_of_ascii c in
      (if Ascii.eqb c dquote || Ascii.eqb c backslash then String backslash (String c "")
       else if Nat.eqb n 8 then String backslash "b"
       else if Nat.eqb n 12 then String backslash "f"
       else if Nat.eqb n 10 then String backslash "n"
       else if Nat.eqb n 13 then String backslash "r"
       else if Nat.eqb n 9 then String backslash "t"
       else if Nat.ltb n 32
       then String backslash ("u00" ++ String (hex_digit (n / 16)) (String (hex_digit (n mod 16)) ""))
       else String c "") ++ escape_chars r
  end.

Definition quote (s : string) : string :=
  String dquote (escape_chars s ++ String dquote "").

Definition number_text (x : float) : string :=
  match Prim2SF x with
  | S754_nan | S754_infinity _ => "null"
  | _ => NumberToString x
  end.

(** [SerializeJSONProperty]: [None] stands for [undefined]. *)
Fixpoint serialize (v : value) : option string :=
  match v with
  | VUndefined => None
  | VNull => Some "null"
  | VBool true => Some "true"
  | VBool false => Some "false"
  | VNum x => Some (number_text x)
  | VStr s => Some (quote s)
  | VArr elems =>
      Some ("[" ++ join "," (map (fun e => match serialize e with
                                           | Some t => t
                                           | None => "null"
                                           end) elems) ++ "]")
  | VObj props =>
      Some ("{" ++ join ","
              ((fix members (ps : list (string * value)) : list string :=
                  match ps with
                  | [] => []
                  | (k, x) :: more =>
                      match serialize x with
                      | Some t => (quote k ++ ":" ++ t) :: members more
                      | None => members more
                      end
                  end) props) ++ "}")
  end.

(** [JSON.stringify]; the program never applies it to [undefined]. *)
Definition JSON_stringify (v : value) : string :=
  match serialize v with
  | Some t => t
  | None => "undefined"
  end.

Definition runtime : Runtime :=
  mkRuntime JSON_parse JSON_stringify StringToNumber NumberToString.

End RefRuntime.

(** ** Notions used by the statements *)

(** The value of [item.key] on an item that is not [null]. *)
Definition prop (item : value) (key : string) : value :=
  match get_prop item key with
  | inr v => v
  | inl _ => VUndefined
  end.

Section Notions.

Context (rt : Runtime).

(** A line item as the order holds it: the identifier as text, the
    quantity as a number, the unit price as a number with a missing or
    falsy price counted as zero, and their product.  [record] is that
    record for [item], whose three conversions succeed. *)
Definition LineItemRecord (item record : value) : Prop :=
  exists id quantity price,
    ToString rt (prop item "id") = inr id /\
    ToNumber rt (prop item "quantity") = inr quantity /\
    (if ToBoolean (prop item "price")
     then ToNumber rt (prop item "price") = inr price
     else price = PrimFloat.zero) /\
    record = VObj [ ("id", VStr id);
                    ("quantity", VNum quantity);
                    ("price", VNum price);
                    ("totalPrice", VNum (PrimFloat.mul price quantity)) ].

(** [v] converts to a primitive: [String(v)], [Number(v)] and a
    comparison or a product with [v] do not throw. *)
Definition convertible (v : value) : Prop :=
  exists p, ToPrimitive rt v = inr p.

(** [items.map] goes through: the callback returns a record for every
    element. *)
Definition normalized (elems records : list value) : Prop :=
  Forall2 (fun item record => normalize_item rt item = inr record) elems records.

(** An element passes the validation loop: it is an object with a truthy
    [id] and a truthy [quantity] that is not [<= 0]. *)
Definition item_accepted (item : value) : Prop :=
  item_rejected rt item = inr false.

(** An element fails it without raising: it can be read, and its [id] is
    falsy, or its [quantity] is falsy or [<= 0]. *)
Definition item_violates (item : value) : Prop :=
  item_rejected rt item = inr true.

(** The answer of the validation loop to an element that violates it. *)
Definition rejection : Response.t :=
  respond rt 400 (error_body "Each item must have productId and positive quantity").

(** The answer of [createOrder]'s [catch] to an exception of message [msg]. *)
Definition unauthorized (msg : string) : Response.t :=
  respond rt 401 (error_details_body "Unauthorized" msg).

(** The answer to a request without a bearer header. *)
Definition token_required : Response.t :=
  respond rt 401 (error_body "Authorization token required").

End Notions.

(** The order [createOrder] builds in [w] for [user] from the records of
    its items: a fresh identifier, the owner, the records in the order of
    submission, the time of creation and the status [pending]. *)
Definition built_order (w : World) (user : User) (records : list value) : value :=
  orderItem_of (uuid_source w (uuids_drawn w)) (Username user) records
               (clock w (clock_reads w)).

(** The world after a put of [item] that the store accepted. *)
Definition after_put (t : string) (item : value) (w : World) : World :=
  store t item (log (CallPut t item) w).

(** The world once [getUser] was called with [token], a uuid drawn and the
    clock read: where [createOrder] stands when it reaches the store. *)
Definition before_put (token : string) (w : World) : World :=
  read_clock (draw_uuid (log (CallGetUser token) w)).

(** The request carries a credential that Cognito verifies in [w]: the
    header passes the prefix check, the token left after stripping is not
    empty, and [getUser] answers with [user]. *)
Definition verified_credential (event : Event.t) (w : World) (token : string)
    (user : User) : Prop :=
  exists authHeader,
    authHeader_of event = Some authHeader /\
    startsWith authHeader "Bearer " = true /\
    token = strip_bearer authHeader /\
    token <> "" /\
    cognito_getUser w token = inr user.

(** No call to the store's put is on record. *)
Definition no_put (cs : list Call) : Prop :=
  forall t item, ~ In (CallPut t item) cs.

(** ** Sample requests *)

Module Sample.

(** The JSON text of a value, for request bodies. *)
Definition json (v : value) : string := RefRuntime.JSON_stringify v.

(** Cognito knows one token; the store accepts everything and is empty. *)
Definition world : World :=
  mkWorld
    (fun token => if String.eqb token "tok-alice" then inr (mkUser "alice")
                  else inl (mkExn "NotAuthorizedException" "Invalid Access Token"))
    (fun _ _ => None)
    (fun _ => None)
    (fun _ => [])
    (fun n => "uuid-" ++ RefRuntime.digits_of (Z.of_nat n))
    (fun _ => "2024-05-01T12:00:00.000Z")
    0 0 [].

(** The same, with a store that rejects every put. *)
Definition world_store_down : World :=
  mkWorld (cognito_getUser world)
    (fun _ _ => Some (mkExn "ServiceUnavailable" "Service Unavailable"))
    (dynamo_scan_rejects world) (tables world) (uuid_source world) (clock world) 0 0 [].

Definition request (method resource : string) (hs : list (string * string))
    (body : option string) : Event.t :=
  Event.mk method resource resource (Some hs) body.

Definition bearer : list (string * string) := [("Authorization", "Bearer tok-alice")].

(** [[{id: 'p1', quantity: 2, price: 5}, {id: 'p2', quantity: 1}]]. *)
Definition two_items : value :=
  VArr [ VObj [("id", VStr "p1"); ("quantity", VNum 2); ("price", VNum 5)];
         VObj [("id", VStr "p2"); ("quantity", VNum 1)] ].

(** The records of those two items. *)
Definition two_records : list value :=
  [ VObj [ ("id", VStr "p1"); ("quantity", VNum 2); ("price", VNum 5);
           ("totalPrice", VNum 10) ];
    VObj [ ("id", VStr "p2"); ("quantity", VNum 1); ("price", VNum 0);
           ("totalPrice", VNum 0) ] ].

(** An object that cannot be converted to a primitive: [{toString: 1}]. *)
Definition unconvertible : value := VObj [("toString", VNum 1)].


(** Items [[{id: 'p1', quantity: {toString: 1}}, {id: 'p2', quantity: 0}]]. *)
Definition post_order_object_quantity : Event.t :=
  request "POST" "/orders" bearer
    (Some (json (VObj [("items",
                        VArr [ VObj [("id", VStr "p1"); ("quantity", unconvertible)];
                               VObj [("id", VStr "p2"); ("quantity", VNum 0)] ])]))).

(** The body [{items: ...}]. *)
Definition order_of (items : value) : option string :=
  Some (json (VObj [("items", items)])).

Definition post_order : Event.t := request "POST" "/orders" bearer (order_of two_items).

(** Items [[null, {id: 'p1', quantity: 0}]]. *)
Definition post_order_null_item : Event.t :=
  request "POST" "/orders" bearer
    (order_of (VArr [VNull; VObj [("id", VStr "p1"); ("quantity", VNum 0)]])).

(** Items [[{id: 'p1', quantity: 2}, {id: 'p2', quantity: 0}]]. *)
Definition post_order_zero_quantity : Event.t :=
  request "POST" "/orders" bearer
    (order_of (VArr [ VObj [("id", VStr "p1"); ("quantity", VNum 2)];
                      VObj [("id", VStr "p2"); ("quantity", VNum 0)] ])).

(** Items [[{id: 'p1', quantity: 1.5}]]. *)
Definition post_order_fractional : Event.t :=
  request "POST" "/orders" bearer
    (order_of (VArr [VObj [("id", VStr "p1"); ("quantity", VNum 1.5)]])).

Definition post_order_no_header : Event.t :=
  request "POST" "/orders" [] (order_of two_items).

Definition post_order_lowercase_scheme : Event.t :=
  request "POST" "/orders" [("Authorization", "bearer tok-alice")] (order_of two_items).

(** A body that is not JSON: an opening brace and nothing else. *)
Definition post_order_malformed : Event.t :=
  request "POST" "/orders" bearer (Some "{").

(** [{name: 'A', price: 10, description: 'd'}], then the same with price
    0, and without a price. *)
Definition product_A : value :=
  VObj [("name", VStr "A"); ("price", VNum 10); ("description", VStr "d")].

Definition post_product : Event.t :=
  request "POST" "/products" [] (Some (json product_A)).

Definition post_product_free : Event.t :=
  request "POST" "/products" []
    (Some (json (VObj [("name", VStr "A"); ("price", VNum 0); ("description", VStr "d")]))).

Definition post_product_no_price : Event.t :=
  request "POST" "/products" []
    (Some (json (VObj [("name", VStr "A"); ("description", VStr "d")]))).

(** [{name: {toString: 1}, price: 10, description: 'd'}]. *)
Definition post_product_object_name : Event.t :=
  request "POST" "/products" []
    (Some (json (VObj [("name", unconvertible); ("price", VNum 10);
                       ("description", VStr "d")]))).

Definition post_product_malformed : Event.t :=
  request "POST" "/products" [] (Some "{").

Definition options_anywhere : Event.t :=
  request "OPTIONS" "/no/such/route" [] None.

(** A store that serves no scan. *)
Definition world_scan_down : World :=
  mkWorld (cognito_getUser world) (dynamo_put_rejects world)
    (fun _ => Some (mkExn "ServiceUnavailable" "Service Unavailable"))
    (tables world) (uuid_source world) (clock world) 0 0 [].

(** A store that holds one product already. *)
Definition world_one_product : World :=
  mkWorld (cognito_getUser world) (dynamo_put_rejects world) (dynamo_scan_rejects world)
    (fun t => if String.eqb t PRODUCT_TABLE_NAME then [product_A] else [])
    (uuid_source world) (clock world) 0 0 [].

Definition get_products : Event.t := request "GET" "/products" [] None.

Definition delete_product : Event.t := request "DELETE" "/products" [] None.

(** Items [[]], and a body [{}] without items. *)
Definition post_order_empty_items : Event.t :=
  request "POST" "/orders" bearer (order_of (VArr [])).

Definition post_order_no_items : Event.t :=
  request "POST" "/orders" bearer (Some (json (VObj []))).

(** The body [null], and no body at all. *)
Definition post_order_null_body : Event.t :=
  request "POST" "/orders" bearer (Some "null").

Definition post_product_no_body : Event.t :=
  request "POST" "/products" [] None.

(** A header that is the scheme and white space, nothing more. *)
Definition post_order_blank_token : Event.t :=
  request "POST" "/orders" [("Authorization", "Bearer   ")] (order_of two_items).

End Sample.

(** ** Notions used by the further properties *)

(** [w'] holds the same records as [w], table by table. *)
Definition same_tables (w w' : World) : Prop :=
  forall t, tables w' t = tables w t.

(** [w'] holds the records of [w] and, last in table [t], [record]. *)
Definition one_more (t : string) (record : value) (w w' : World) : Prop :=
  forall t', tables w' t' = if String.eqb t' t then (tables w t' ++ [record])%list
                           else tables w t'.

Fixpoint all_spaces (s : string) : bool :=
  match s with
  | String c s' => is_space c && all_spaces s'
  | EmptyString => true
  end.

Definition starts_with_space (s : string) : bool :=
  match s with
  | String c _ => is_space c
  | EmptyString => false
  end.

(** The request is routed to [createOrder]. *)
Definition to_createOrder (event : Event.t) : Prop :=
  Event.httpMethod event = "POST" /\ Event.resource event = "/orders".

(** The runs of [handler]: the answer and the world it leaves, by what was
    called on the collaborators. *)
Inductive Run (rt : Runtime) (event : Event.t) (w : World) : Response.t -> World -> Prop :=
| run_preflight :
    Event.httpMethod event = "OPTIONS" ->
    Run rt event w (Response.mk 200 preflight_headers (JSON_stringify rt (VObj []))) w
| run_no_call (status : Z) (b : value) :
    In status [400; 401; 404; 500]%Z ->
    Run rt event w (respond rt status b) w
| run_verifier_only (status : Z) (b : value) (token : string) :
    to_createOrder event -> token <> "" ->
    In status [400; 401]%Z ->
    Run rt event w (respond rt status b) (log (CallGetUser token) w)
| run_order_unconverted (token : string) (e : Exn) :
    to_createOrder event -> token <> "" ->
    Run rt event w (unauthorized rt (emessage e))
        (draw_uuid (log (CallGetUser token) w))
| run_order_refused (token : string) (user : User) (order : value) (e : Exn) :
    to_createOrder event ->
    verified_credential event w token user ->
    prop order "userId" = VStr (Username user) ->
    Run rt event w (unauthorized rt (emessage e))
        (log (CallPut ORDER_TABLE_NAME order) (before_put token w))
| run_order_stored (token : string) (user : User) (order : value) :
    to_createOrder event ->
    verified_credential event w token user ->
    prop order "userId" = VStr (Username user) ->
    Run rt event w (respond rt 201 order)
        (after_put ORDER_TABLE_NAME order (before_put token w))
| run_product_unconverted (e : Exn) :
    Event.httpMethod event = "POST" ->
    Run rt event w
        (respond rt 500 (error_details_body "Internal server error" (emessage e)))
        (draw_uuid w)
| run_product_refused (product : value) (e : Exn) :
    Event.httpMethod event = "POST" ->
    Run rt event w
        (respond rt 500 (error_details_body "Internal server error" (emessage e)))
        (log (CallPut PRODUCT_TABLE_NAME product) (read_clock (draw_uuid w)))
| run_product_stored (product : value) :
    Event.httpMethod event = "POST" ->
    Run rt event w (respond rt 201 product)
        (after_put PRODUCT_TABLE_NAME product (read_clock (draw_uuid w)))
| run_listed (t : string) :
    t = PRODUCT_TABLE_NAME \/ t = ORDER_TABLE_NAME ->
    Event.httpMethod event = "GET" ->
    Run rt event w (respond rt 200 (VArr (tables w t))) (log (CallScan t) w)
| run_scan_refused (t : string) (e : Exn) :
    t = PRODUCT_TABLE_NAME \/ t = ORDER_TABLE_NAME ->
    Event.httpMethod event = "GET" ->
    Run rt event w
        (respond rt 500 (error_details_body "Internal server error" (emessage e)))
        (log (CallScan t) w).



(** * Properties *)

(** ** Running computations *)

Lemma bind_returned {A B : Type} (m : M A) (k : A -> M B) (w w' : World) (a : A) :
  m w = (Returned a, w') -> bind m k w = k a w'.
Proof. intros H. unfold bind. now rewrite H. Qed.

Lemma bind_thrown {A B : Type} (m : M A) (k : A -> M B) (w w' : World) (e : Exn) :
  m w = (Thrown e, w') -> bind m k w = (Thrown e, w').
Proof. intros H. unfold bind. now rewrite H. Qed.

Lemma try_catch_returned {A : Type} (m : M A) (h : Exn -> M A) (w w' : World) (a : A) :
  m w = (Returned a, w') -> try_catch m h w = (Returned a, w').
Proof. intros H. unfold try_catch. now rewrite H. Qed.

Lemma try_catch_thrown {A : Type} (m : M A) (h : Exn -> M A) (w w' : World) (e : Exn) :
  m w = (Thrown e, w') -> try_catch m h w = h e w'.
Proof. intros H. unfold try_catch. now rewrite H. Qed.

(** A handler that only returns makes the whole [try] statement return. *)
Lemma try_catch_total {A : Type} (m : M A) (f : Exn -> A) (w : World) :
  exists a w', try_catch m (fun e => ret (f e)) w = (Returned a, w').
Proof.
  unfold try_catch. destruct (m w) as [[a | e] w'].
  - now exists a, w'.
  - now exists (f e), w'.
Qed.

Lemma nonempty_truthy (s : string) : s <> "" -> ToBoolean (VStr s) = true.
Proof.
  intros H. simpl. destruct (String.eqb_spec s ""); [contradiction | reflexivity].
Qed.

(** ** [verifyToken] *)

Lemma verifyToken_empty (w : World) :
  verifyToken "" w
  = (Thrown (Error "Invalid token: Error: No token provided"), w).
Proof. reflexivity. Qed.

Lemma verifyToken_accepts (token : string) (user : User) (w : World) :
  token <> "" -> cognito_getUser w token = inr user ->
  verifyToken token w = (Returned user, log (CallGetUser token) w).
Proof.
  intros Hne Hu. unfold verifyToken. rewrite (nonempty_truthy _ Hne). simpl.
  unfold try_catch, bind, getUser. now rewrite Hu.
Qed.

Lemma verifyToken_rejects (token : string) (e : Exn) (w : World) :
  token <> "" -> cognito_getUser w token = inl e ->
  verifyToken token w
  = (Thrown (Error ("Invalid token: " ++ ExnToString e)), log (CallGetUser token) w).
Proof.
  intros Hne He. unfold verifyToken. rewrite (nonempty_truthy _ Hne). simpl.
  unfold try_catch, bind, getUser. now rewrite He.
Qed.

(** ** The validation loop and the normalisation of items *)

Section Items.

Context (rt : Runtime).

(** An accepted element is an object or another value with readable
    properties: it is not [null] or [undefined]. *)
Lemma accepted_not_nullish (item : value) :
  item_accepted rt item -> is_nullish item = false.
Proof.
  unfold item_accepted, item_rejected. destruct item; simpl; congruence.
Qed.

Lemma get_prop_prop (item : value) (key : string) :
  is_nullish item = false -> get_prop item key = inr (prop item key).
Proof.
  unfold prop. destruct item; simpl; congruence.
Qed.

(** The loop's test, on an element that can be read. *)
Lemma item_rejected_readable (item : value) :
  is_nullish item = false ->
  item_rejected rt item
  = if negb (ToBoolean (prop item "id")) then inr true
    else if negb (ToBoolean (prop item "quantity")) then inr true
         else js_le_num rt (prop item "quantity") PrimFloat.zero.
Proof.
  intros H. unfold item_rejected.
  rewrite !(get_prop_prop _ _ H). reflexivity.
Qed.

(** The loop never touches the world. *)
Lemma validate_items_pure (items : list value) (w : World) :
  snd (validate_items rt items w) = w.
Proof.
  induction items as [| item rest IH]; simpl; [reflexivity |].
  unfold bind, lift. destruct (item_rejected rt item) as [e | [|]]; simpl; auto.
Qed.

Lemma validate_items_accepted (items : list value) (w : World) :
  Forall (item_accepted rt) items ->
  validate_items rt items w = (Returned None, w).
Proof.
  induction 1 as [| item rest Hitem _ IH]; simpl; [reflexivity |].
  unfold bind, lift. rewrite Hitem. simpl. exact IH.
Qed.

(** The loop stops at the first element that is not accepted: with status
    400 when that element violates the test. *)
Lemma validate_items_violation (good rest : list value) (bad : value) (w : World) :
  Forall (item_accepted rt) good -> item_violates rt bad ->
  validate_items rt (good ++ bad :: rest) w = (Returned (Some (rejection rt)), w).
Proof.
  intros Hgood Hbad. induction Hgood as [| item good' Hitem _ IH]; simpl.
  - unfold bind, lift. rewrite Hbad. reflexivity.
  - unfold bind, lift. rewrite Hitem. simpl. exact IH.
Qed.

(** ... and with the exception of the test when it throws. *)
Lemma validate_items_unreadable (good rest : list value) (bad : value) (e : Exn)
    (w : World) :
  Forall (item_accepted rt) good -> item_rejected rt bad = inl e ->
  validate_items rt (good ++ bad :: rest) w = (Thrown e, w).
Proof.
  intros Hgood Hbad. induction Hgood as [| item good' Hitem _ IH]; simpl.
  - unfold bind, lift. rewrite Hbad. reflexivity.
  - unfold bind, lift. rewrite Hitem. simpl. exact IH.
Qed.

(** Every list splits at its first element that is not accepted. *)
Lemma first_not_accepted (items : list value) :
  Forall (item_accepted rt) items \/
  exists good bad rest,
    items = (good ++ bad :: rest)%list /\ Forall (item_accepted rt) good /\
    (item_violates rt bad \/ exists e, item_rejected rt bad = inl e).
Proof.
  induction items as [| item items' IH]; [left; constructor |].
  destruct (item_rejected rt item) as [e | [|]] eqn:Hitem.
  - right. exists [], item, items'. repeat split; eauto.
  - right. exists [], item, items'. repeat split; auto.
  - destruct IH as [IH | (good & bad & rest & -> & Hgood & Hbad)].
    + left. constructor; assumption.
    + right. exists (item :: good), bad, rest. repeat split; auto.
Qed.

(** The callback of the map, on an element that can be read: it returns
    exactly when the identifier, the quantity and the price convert, and
    then the record is the line item of the specification. *)
Lemma normalize_item_record (item record : value) :
  is_nullish item = false ->
  (normalize_item rt item = inr record <-> LineItemRecord rt item record).
Proof.
  intros H. unfold normalize_item, LineItemRecord, js_mul, js_or, lineItem_of.
  rewrite !(get_prop_prop _ _ H). simpl and_then.
  destruct (ToString rt (prop item "id")) as [e | id]; simpl.
  { split; [discriminate | intros (? & ? & ? & ? & _); discriminate]. }
  destruct (ToNumber rt (prop item "quantity")) as [e | quantity]; simpl.
  { split; [discriminate | intros (? & ? & ? & _ & ? & _); discriminate]. }
  destruct (ToBoolean (prop item "price")).
  - destruct (ToNumber rt (prop item "price")) as [e | price]; simpl.
    { split; [discriminate | intros (? & ? & ? & _ & _ & ? & _); discriminate]. }
    split.
    + intros [= <-]. exists id, quantity, price. auto.
    + intros (id' & quantity' & price' & [= <-] & [= <-] & [= <-] & ->). reflexivity.
  - simpl. split.
    + intros [= <-]. exists id, quantity, PrimFloat.zero. auto.
    + intros (id' & quantity' & price' & [= <-] & [= <-] & -> & ->). reflexivity.
Qed.

(** [items.map] when the callback returns for every element: the records,
    in order. *)
Lemma map_items_normalized (items records : list value) (w : World) :
  normalized rt items records ->
  map_items rt items w = (Returned records, w).
Proof.
  induction 1 as [| item record rest records' Hitem _ IH]; simpl; [reflexivity |].
  unfold bind at 1, lift. rewrite Hitem. simpl.
  unfold bind, ret. rewrite IH. reflexivity.
Qed.

(** [items.map] either goes through or throws; the world is untouched. *)
Lemma map_items_cases (items : list value) (w : World) :
  (exists records,
     normalized rt items records /\ map_items rt items w = (Returned records, w)) \/
  (exists e, map_items rt items w = (Thrown e, w)).
Proof.
  induction items as [| item rest IH]; simpl.
  - left. exists []. split; [constructor | reflexivity].
  - unfold bind at 1, lift.
    destruct (normalize_item rt item) as [e | record] eqn:Hitem; simpl.
    + right. now exists e.
    + unfold bind, ret. destruct IH as [(records & Hn & ->) | (e & ->)].
      * left. exists (record :: records).
        split; [apply Forall2_cons; assumption | reflexivity].
      * right. now exists e.
Qed.



End Items.

(** ** Conversions to a primitive *)

Section Conversions.

Context (rt : Runtime).

Lemma convertible_ToString (v : value) :
  convertible rt v <-> exists s, ToString rt v = inr s.
Proof.
  unfold convertible, ToPrimitive. split.
  - intros (p & H). destruct v; try (simpl; eauto; fail).
    + destruct b; simpl; eauto.
    + destruct (ToString rt (VArr elems)); [discriminate H | eauto].
    + destruct (ToString rt (VObj props)); [discriminate H | eauto].
  - intros (s & H). destruct v; eauto; rewrite H; simpl; eauto.
Qed.

Lemma convertible_ToNumber (v : value) :
  convertible rt v <-> exists x, ToNumber rt v = inr x.
Proof.
  unfold convertible, ToNumber. split.
  - intros (p & ->). simpl. eauto.
  - intros (x & H). destruct (ToPrimitive rt v); [discriminate H | eauto].
Qed.

(** Only an object or an array can fail to convert. *)
Lemma falsy_convertible (v : value) : ToBoolean v = false -> convertible rt v.
Proof.
  unfold convertible. destruct v; simpl; try discriminate; eauto.
Qed.

Lemma ToString_string (s : string) : ToString rt (VStr s) = inr s.
Proof. reflexivity. Qed.

Lemma ToNumber_number (x : float) : ToNumber rt (VNum x) = inr x.
Proof. reflexivity. Qed.

(** An accepted element whose identifier and price convert gets a record
    from the callback of the map. *)
Lemma normalize_item_returns (item : value) :
  item_accepted rt item ->
  convertible rt (prop item "id") -> convertible rt (prop item "price") ->
  exists record, normalize_item rt item = inr record.
Proof.
  intros Hacc Hid Hprice. pose proof (accepted_not_nullish rt _ Hacc) as Hn.
  apply convertible_ToString in Hid. destruct Hid as (id & Hid).
  assert (Hq : exists quantity, ToNumber rt (prop item "quantity") = inr quantity).
  { unfold item_accepted in Hacc. rewrite (item_rejected_readable rt _ Hn) in Hacc.
    destruct (ToBoolean (prop item "id")); [| discriminate Hacc].
    destruct (ToBoolean (prop item "quantity")); [| discriminate Hacc].
    simpl in Hacc. unfold js_le_num in Hacc.
    destruct (ToNumber rt (prop item "quantity")); [discriminate Hacc | eauto]. }
  destruct Hq as (quantity & Hq).
  destruct (ToBoolean (prop item "price")) eqn:Hb.
  - apply convertible_ToNumber in Hprice. destruct Hprice as (price & Hprice).
    eexists. apply (normalize_item_record rt _ _ Hn).
    exists id, quantity, price. rewrite Hb. auto.
  - eexists. apply (normalize_item_record rt _ _ Hn).
    exists id, quantity, PrimFloat.zero. rewrite Hb. auto.
Qed.

(** ... and conversely. *)
Lemma normalize_item_converts (item record : value) :
  is_nullish item = false -> normalize_item rt item = inr record ->
  convertible rt (prop item "id") /\ convertible rt (prop item "price").
Proof.
  intros Hn H. apply (normalize_item_record rt _ _ Hn) in H.
  destruct H as (id & quantity & price & Hid & _ & Hprice & _). split.
  - apply convertible_ToString. eauto.
  - destruct (ToBoolean (prop item "price")) eqn:Hb.
    + apply convertible_ToNumber. eauto.
    + now apply falsy_convertible.
Qed.

Lemma normalized_exists (items : list value) :
  Forall (item_accepted rt) items ->
  Forall (fun item => convertible rt (prop item "id") /\
                      convertible rt (prop item "price")) items ->
  exists records, normalized rt items records.
Proof.
  induction 1 as [| item rest Hitem _ IH]; intros Hconv.
  - exists []. constructor.
  - inversion Hconv as [| ? ? [Hid Hprice] Hrest]; subst.
    destruct (normalize_item_returns item Hitem Hid Hprice) as (record & Hr).
    destruct (IH Hrest) as (records & Hrs).
    exists (record :: records). now apply Forall2_cons.
Qed.

End Conversions.


(** ** The [try] block of [createOrder], path by path *)

Section OrderPaths.

Context (rt : Runtime).
Context (event : Event.t) (w : World) (token : string) (user : User).
Context (body : value) (elems : list value).

Hypothesis token_given : token <> "".
Hypothesis token_verified : cognito_getUser w token = inr user.
Hypothesis body_parsed : JSON_parse rt (body_text event) = inr body.
Hypothesis items_given : destructure body "items" = inr (VArr elems).
Hypothesis items_nonempty : elems <> [].

(** Up to the validation loop. *)
Lemma createOrder_try_reaches_loop :
  createOrder_try rt event token w
  = (let* early := validate_items rt elems in
     match early with
     | Some r => ret r
     | None =>
         let* id := uuidv4 in
         let* normalized := map_items rt elems in
         let* createdAt := now_ISOString in
         let orderItem := orderItem_of id (Username user) normalized createdAt in
         let* _ := dynamoDb_put ORDER_TABLE_NAME orderItem in
         ret (respond rt 201 orderItem)
     end) (log (CallGetUser token) w).
Proof.
  unfold createOrder_try.
  rewrite (bind_returned _ _ _ _ _ (verifyToken_accepts _ _ _ token_given token_verified)).
  rewrite body_parsed. unfold bind at 1. simpl lift. unfold ret at 1.
  rewrite items_given. unfold bind at 1. simpl lift. unfold ret at 1.
  destruct elems; [congruence | reflexivity].
Qed.

Lemma createOrder_try_violation (good rest : list value) (bad : value) :
  elems = (good ++ bad :: rest)%list ->
  Forall (item_accepted rt) good -> item_violates rt bad ->
  createOrder_try rt event token w = (Returned (rejection rt), log (CallGetUser token) w).
Proof.
  intros Helems Hgood Hbad. rewrite createOrder_try_reaches_loop, Helems.
  now rewrite (bind_returned _ _ _ _ _ (validate_items_violation rt _ rest _ _ Hgood Hbad)).
Qed.

Lemma createOrder_try_unreadable (good rest : list value) (bad : value) (e : Exn) :
  elems = (good ++ bad :: rest)%list ->
  Forall (item_accepted rt) good -> item_rejected rt bad = inl e ->
  createOrder_try rt event token w = (Thrown e, log (CallGetUser token) w).
Proof.
  intros Helems Hgood Hbad. rewrite createOrder_try_reaches_loop, Helems.
  now rewrite (bind_thrown _ _ _ _ _ (validate_items_unreadable rt _ rest _ _ _ Hgood Hbad)).
Qed.

Lemma createOrder_try_stored (records : list value) :
  Forall (item_accepted rt) elems ->
  normalized rt elems records ->
  dynamo_put_rejects w ORDER_TABLE_NAME (built_order w user records) = None ->
  createOrder_try rt event token w
  = (Returned (respond rt 201 (built_order w user records)),
     after_put ORDER_TABLE_NAME (built_order w user records) (before_put token w)).
Proof.
  intros Hall Hmap Hput. rewrite createOrder_try_reaches_loop.
  rewrite (bind_returned _ _ _ _ _ (validate_items_accepted rt _ _ Hall)).
  unfold bind at 1, uuidv4.
  rewrite (bind_returned _ _ _ _ _ (map_items_normalized rt _ _ _ Hmap)).
  unfold bind, now_ISOString, dynamoDb_put. simpl. fold (built_order w user records).
  rewrite Hput. reflexivity.
Qed.

Lemma createOrder_try_put_rejected (records : list value) (e : Exn) :
  Forall (item_accepted rt) elems ->
  normalized rt elems records ->
  dynamo_put_rejects w ORDER_TABLE_NAME (built_order w user records) = Some e ->
  createOrder_try rt event token w
  = (Thrown e, log (CallPut ORDER_TABLE_NAME (built_order w user records))
                   (before_put token w)).
Proof.
  intros Hall Hmap Hput. rewrite createOrder_try_reaches_loop.
  rewrite (bind_returned _ _ _ _ _ (validate_items_accepted rt _ _ Hall)).
  unfold bind at 1, uuidv4.
  rewrite (bind_returned _ _ _ _ _ (map_items_normalized rt _ _ _ Hmap)).
  unfold bind, now_ISOString, dynamoDb_put. simpl. fold (built_order w user records).
  rewrite Hput. reflexivity.
Qed.

(** The map throws on validated items: a uuid was drawn, nothing more. *)
Lemma createOrder_try_map_throws (e : Exn) :
  Forall (item_accepted rt) elems ->
  map_items rt elems (draw_uuid (log (CallGetUser token) w))
  = (Thrown e, draw_uuid (log (CallGetUser token) w)) ->
  createOrder_try rt event token w
  = (Thrown e, draw_uuid (log (CallGetUser token) w)).
Proof.
  intros Hall Hmap. rewrite createOrder_try_reaches_loop.
  rewrite (bind_returned _ _ _ _ _ (validate_items_accepted rt _ _ Hall)).
  unfold bind at 1, uuidv4.
  now rewrite (bind_thrown _ _ _ _ _ Hmap).
Qed.

End OrderPaths.

(** ** [createOrder] and the dispatcher *)

Section Dispatch.

Context (rt : Runtime).

Lemma createOrder_with_bearer (event : Event.t) (authHeader : string) (w : World) :
  authHeader_of event = Some authHeader -> startsWith authHeader "Bearer " = true ->
  createOrder rt event w
  = try_catch (createOrder_try rt event (strip_bearer authHeader))
              (fun error => ret (unauthorized rt (emessage error))) w.
Proof.
  intros Hh Hp. unfold createOrder. rewrite Hh, Hp. reflexivity.
Qed.

Lemma createOrder_without_bearer (event : Event.t) (w : World) :
  authHeader_of event = None \/
  (exists authHeader,
     authHeader_of event = Some authHeader /\ startsWith authHeader "Bearer " = false) ->
  createOrder rt event w = (Returned (token_required rt), w).
Proof.
  intros [Hh | (h & Hh & Hp)]; unfold createOrder; rewrite Hh; [| rewrite Hp]; reflexivity.
Qed.

(** The dispatcher passes on whatever a handler returns. *)
Lemma handler_POST_orders (event : Event.t) (w w' : World) (r : Response.t) :
  Event.httpMethod event = "POST" -> Event.resource event = "/orders" ->
  createOrder rt event w = (Returned r, w') ->
  handler rt event w = (Returned r, w').
Proof.
  intros Hm Hr Hc. unfold handler. rewrite Hm, Hr. simpl.
  now apply try_catch_returned.
Qed.

Lemma handler_POST_products (event : Event.t) (w : World) :
  Event.httpMethod event = "POST" -> Event.resource event = "/products" ->
  handler rt event w
  = try_catch (createProduct rt event)
      (fun error =>
         ret (respond rt 500 (error_details_body "Internal server error" (emessage error))))
      w.
Proof.
  intros Hm Hr. unfold handler. rewrite Hm, Hr. reflexivity.
Qed.

(** The loop returns nothing but its rejection. *)
Lemma validate_items_returns (items : list value) (w w' : World) (r : Response.t) :
  validate_items rt items w = (Returned (Some r), w') -> r = rejection rt.
Proof.
  induction items as [| item rest IH]; simpl; [discriminate |].
  unfold bind, lift. destruct (item_rejected rt item) as [e | [|]]; simpl.
  - discriminate.
  - intros [= <- _]. reflexivity.
  - exact IH.
Qed.

(** The [try] block returns with status 201 or 400 only. *)
Lemma createOrder_try_status (event : Event.t) (token : string) (w w' : World)
    (r : Response.t) :
  createOrder_try rt event token w = (Returned r, w') ->
  Response.statusCode r = 201%Z \/ Response.statusCode r = 400%Z.
Proof.
  unfold createOrder_try, bind.
  destruct (verifyToken token w) as [[user | e] w1]; [| discriminate].
  destruct (lift (JSON_parse rt (body_text event)) w1) as [[body | e] w2]; [| discriminate].
  destruct (lift (destructure body "items") w2) as [[items | e] w3]; [| discriminate].
  destruct (negb (ToBoolean items) || negb (isArray items)
            || Nat.eqb (array_length items) 0).
  - intros [= <- _]. now right.
  - destruct (validate_items rt (elements items) w3) as [[[r' |] | e] w4] eqn:Hv;
      [| | discriminate].
    + intros [= <- _]. rewrite (validate_items_returns _ _ _ _ Hv). now right.
    + destruct (uuidv4 w4) as [[id | e] w5]; [| discriminate].
      destruct (map_items rt (elements items) w5) as [[normalized | e] w6];
        [| discriminate].
      destruct (now_ISOString w6) as [[createdAt | e] w7]; [| discriminate].
      destruct (dynamoDb_put _ _ w7) as [[[] | e] w8]; [| discriminate].
      intros [= <- _]. now left.
Qed.

End Dispatch.

(** ** The dispatcher and the order workflow *)

(** C9.  A request with method OPTIONS, whatever its path, headers and
    body, is answered with status 200, the base headers followed by the
    allowed-methods and allowed-headers entries, and the serialisation of
    the empty object.  The world is left as it was: no route was tried,
    no body parsed, nothing called on Cognito or on the store. *)
Theorem handler_OPTIONS_preflight (rt : Runtime) (event : Event.t) (w : World) :
  Event.httpMethod event = "OPTIONS" ->
  handler rt event w
  = (Returned
       (Response.mk 200
          (headers ++
           [ ("Access-Control-Allow-Methods", VStr "GET,POST,PUT,DELETE,OPTIONS");
             ("Access-Control-Allow-Headers",
              VStr "Content-Type,X-Amz-Date,Authorization,X-Api-Key,X-Amz-Security-Token") ])
          (JSON_stringify rt (VObj []))),
     w).
Proof.
  intros Hm. unfold handler. rewrite Hm. reflexivity.
Qed.

Lemma handler_OPTIONS_preflight_witness :
  handler RefRuntime.runtime Sample.options_anywhere Sample.world
  = (Returned (Response.mk 200 preflight_headers "{}"), Sample.world).
Proof.
  exact (handler_OPTIONS_preflight RefRuntime.runtime Sample.options_anywhere
           Sample.world eq_refl).
Defined.

(** C4.  When the Authorization header is absent, or does not start with
    [Bearer ], order creation answers 401 with the body
    [{error: "Authorization token required"}], directly and through the
    dispatcher, and the world is unchanged: the token verifier was not
    called. *)
Theorem createOrder_requires_bearer (rt : Runtime) (event : Event.t) (w : World) :
  authHeader_of event = None \/
  (exists authHeader,
     authHeader_of event = Some authHeader /\ startsWith authHeader "Bearer " = false) ->
  createOrder rt event w
  = (Returned (respond rt 401 (error_body "Authorization token required")), w) /\
  (Event.httpMethod event = "POST" -> Event.resource event = "/orders" ->
   handler rt event w
   = (Returned (respond rt 401 (error_body "Authorization token required")), w)).
Proof.
  intros H. pose proof (createOrder_without_bearer rt event w H) as Hc.
  split; [exact Hc |].
  intros Hm Hr. now apply handler_POST_orders.
Qed.

Lemma createOrder_requires_bearer_witness :
  handler RefRuntime.runtime Sample.post_order_no_header Sample.world
  = (Returned (token_required RefRuntime.runtime), Sample.world).
Proof.
  exact (proj2 (createOrder_requires_bearer RefRuntime.runtime
                  Sample.post_order_no_header Sample.world (or_introl eq_refl))
               eq_refl eq_refl).
Defined.

(** C1.  Once the Authorization header has passed the prefix check,
    [createOrder] never throws.  Whatever its [try] block throws is
    answered with status 401 and the body
    [{error: "Unauthorized", details: <message>}]; whatever it returns
    (status 201 or 400) is returned as it is; and the dispatcher passes
    the answer on, so its own status 500 is not produced.  In particular
    an empty credential, a rejection by the verifier, a body that does
    not parse, a put that the store rejects and a field of an item that
    cannot be converted all end in that 401. *)
Theorem createOrder_catch_all (rt : Runtime) (event : Event.t) (w : World)
    (authHeader : string) :
  authHeader_of event = Some authHeader ->
  startsWith authHeader "Bearer " = true ->
  let token := strip_bearer authHeader in
  (forall e w',
     createOrder_try rt event token w = (Thrown e, w') ->
     createOrder rt event w
     = (Returned (respond rt 401 (error_details_body "Unauthorized" (emessage e))), w')) /\
  (forall r w',
     createOrder_try rt event token w = (Returned r, w') ->
     createOrder rt event w = (Returned r, w')) /\
  (exists r w',
     createOrder rt event w = (Returned r, w') /\
     Response.statusCode r <> 500%Z /\
     (Event.httpMethod event = "POST" -> Event.resource event = "/orders" ->
      handler rt event w = (Returned r, w'))) /\
  (token = "" ->
   createOrder rt event w
   = (Returned (unauthorized rt "Invalid token: Error: No token provided"), w)) /\
  (forall e,
     token <> "" -> cognito_getUser w token = inl e ->
     createOrder rt event w
     = (Returned (unauthorized rt ("Invalid token: " ++ ExnToString e)),
        log (CallGetUser token) w)) /\
  (forall user e,
     token <> "" -> cognito_getUser w token = inr user ->
     JSON_parse rt (body_text event) = inl e ->
     createOrder rt event w
     = (Returned (unauthorized rt (emessage e)), log (CallGetUser token) w)) /\
  (forall user body elems records e,
     token <> "" -> cognito_getUser w token = inr user ->
     JSON_parse rt (body_text event) = inr body ->
     destructure body "items" = inr (VArr elems) -> elems <> [] ->
     Forall (item_accepted rt) elems ->
     normalized rt elems records ->
     dynamo_put_rejects w ORDER_TABLE_NAME (built_order w user records) = Some e ->
     createOrder rt event w
     = (Returned (unauthorized rt (emessage e)),
        log (CallPut ORDER_TABLE_NAME (built_order w user records)) (before_put token w))) /\
  (forall user body elems e,
     token <> "" -> cognito_getUser w token = inr user ->
     JSON_parse rt (body_text event) = inr body ->
     destructure body "items" = inr (VArr elems) -> elems <> [] ->
     Forall (item_accepted rt) elems ->
     map_items rt elems (draw_uuid (log (CallGetUser token) w))
     = (Thrown e, draw_uuid (log (CallGetUser token) w)) ->
     createOrder rt event w
     = (Returned (unauthorized rt (emessage e)), draw_uuid (log (CallGetUser token) w))).
Proof.
  intros Hh Hp token.
  pose proof (createOrder_with_bearer rt event authHeader w Hh Hp) as Hc.
  fold token in Hc.
  assert (Hthrown : forall e w',
             createOrder_try rt event token w = (Thrown e, w') ->
             createOrder rt event w = (Returned (unauthorized rt (emessage e)), w')).
  { intros e w' Ht. rewrite Hc. now rewrite (try_catch_thrown _ _ _ _ _ Ht). }
  assert (Hreturned : forall r w',
             createOrder_try rt event token w = (Returned r, w') ->
             createOrder rt event w = (Returned r, w')).
  { intros r w' Ht. rewrite Hc. now apply try_catch_returned. }
  repeat split.
  - exact Hthrown.
  - exact Hreturned.
  - destruct (createOrder_try rt event token w) as [[r | e] w'] eqn:Ht.
    + exists r, w'. split; [now apply Hreturned |]. split.
      * destruct (createOrder_try_status rt _ _ _ _ _ Ht) as [-> | ->]; discriminate.
      * intros Hm Hr. apply handler_POST_orders; auto.
    + exists (unauthorized rt (emessage e)), w'. split; [now apply Hthrown |]. split.
      * discriminate.
      * intros Hm Hr. apply handler_POST_orders; auto.
  - intros Htok.
    apply (Hthrown (Error "Invalid token: Error: No token provided")).
    unfold createOrder_try. rewrite Htok.
    now rewrite (bind_thrown _ _ _ _ _ (verifyToken_empty w)).
  - intros e Hne He.
    apply (Hthrown (Error ("Invalid token: " ++ ExnToString e))).
    unfold createOrder_try.
    now rewrite (bind_thrown _ _ _ _ _ (verifyToken_rejects _ _ _ Hne He)).
  - intros user e Hne Hu He. apply Hthrown. unfold createOrder_try.
    rewrite (bind_returned _ _ _ _ _ (verifyToken_accepts _ _ _ Hne Hu)).
    rewrite He. reflexivity.
  - intros user body elems records e Hne Hu Hb Hi Hn Hall Hmap Hput. apply Hthrown.
    now apply (createOrder_try_put_rejected rt event w token user body elems).
  - intros user body elems e Hne Hu Hb Hi Hn Hall Hmap. apply Hthrown.
    now apply (createOrder_try_map_throws rt event w token user body elems).
Qed.

Lemma createOrder_catch_all_witness :
  createOrder RefRuntime.runtime Sample.post_order Sample.world_store_down
  = (Returned (unauthorized RefRuntime.runtime "Service Unavailable"),
     log (CallPut ORDER_TABLE_NAME
            (built_order Sample.world_store_down (mkUser "alice") Sample.two_records))
         (before_put "tok-alice" Sample.world_store_down)).
Proof.
  pose proof (createOrder_catch_all RefRuntime.runtime Sample.post_order
                Sample.world_store_down "Bearer tok-alice" eq_refl eq_refl) as H.
  cbv zeta in H. destruct H as (_ & _ & _ & _ & _ & _ & H & _).
  apply (H (mkUser "alice") (VObj [("items", Sample.two_items)])
           (elements Sample.two_items) Sample.two_records
           (mkExn "ServiceUnavailable" "Service Unavailable")).
  - discriminate.
  - reflexivity.
  - vm_compute. reflexivity.
  - reflexivity.
  - discriminate.
  - repeat constructor.
  - repeat constructor.
  - reflexivity.
Defined.

(** C2, not as stated: the second element has quantity 0 and the
    credential is verified, yet the first element is [null], reading its
    [id] throws, and the answer is 401 rather than 400. *)
Lemma createOrder_null_item_is_401 :
  JSON_parse RefRuntime.runtime (body_text Sample.post_order_null_item)
  = inr (VObj [("items",
                VArr [VNull; VObj [("id", VStr "p1"); ("quantity", VNum 0)]])]) /\
  item_violates RefRuntime.runtime (VObj [("id", VStr "p1"); ("quantity", VNum 0)]) /\
  cognito_getUser Sample.world "tok-alice" = inr (mkUser "alice") /\
  handler RefRuntime.runtime Sample.post_order_null_item Sample.world
  = (Returned (Response.mk 401 headers
                 (JSON_stringify RefRuntime.runtime
                    (error_details_body "Unauthorized"
                       "Cannot read properties of null (reading 'id')"))),
     log (CallGetUser "tok-alice") Sample.world).
Proof.
  repeat split; vm_compute; reflexivity.
Qed.

(** C2, amended.  With a verified credential and an items array in which
    every element before some element [bad] passes the loop's test (the
    test is false on it and does not throw), where [bad] is not [null]
    and has a falsy [id], a falsy [quantity] or a [quantity] that
    compares [<= 0], the answer is 400 with the body
    [{error: "Each item must have productId and positive quantity"}],
    whatever the elements after it; the only call made is the one to the
    verifier, so nothing was put, and the tables are as they were. *)
Theorem createOrder_first_violation (rt : Runtime) (event : Event.t) (w : World)
    (token : string) (user : User) (body : value) (good rest : list value)
    (bad : value) :
  verified_credential event w token user ->
  JSON_parse rt (body_text event) = inr body ->
  destructure body "items" = inr (VArr (good ++ bad :: rest)) ->
  Forall (item_accepted rt) good ->
  is_nullish bad = false ->
  ToBoolean (prop bad "id") = false \/
  ToBoolean (prop bad "quantity") = false \/
  js_le_num rt (prop bad "quantity") PrimFloat.zero = inr true ->
  exists w',
    createOrder rt event w
    = (Returned (respond rt 400
                   (error_body "Each item must have productId and positive quantity")),
       w') /\
    calls w' = CallGetUser token :: calls w /\
    tables w' = tables w /\
    (no_put (calls w) -> no_put (calls w')).
Proof.
  intros (authHeader & Hh & Hp & -> & Hne & Hu) Hb Hi Hgood Hread Hbad.
  assert (Hviol : item_violates rt bad).
  { unfold item_violates. rewrite (item_rejected_readable rt _ Hread).
    destruct Hbad as [-> | [-> | Hle]]; simpl; [reflexivity | |].
    - now destruct (ToBoolean (prop bad "id")).
    - now destruct (ToBoolean (prop bad "id")), (ToBoolean (prop bad "quantity")). }
  assert (Hnonempty : (good ++ bad :: rest)%list <> []) by (destruct good; discriminate).
  exists (log (CallGetUser (strip_bearer authHeader)) w).
  split; [| split; [reflexivity | split; [reflexivity |]]].
  - rewrite (createOrder_with_bearer rt _ _ _ Hh Hp).
    apply try_catch_returned.
    apply (createOrder_try_violation rt event w _ user body (good ++ bad :: rest)
             Hne Hu Hb Hi Hnonempty good rest bad eq_refl Hgood Hviol).
  - intros Hno t item [Hin | Hin]; [discriminate | exact (Hno t item Hin)].
Qed.

Lemma createOrder_first_violation_witness :
  exists w',
    createOrder RefRuntime.runtime Sample.post_order_zero_quantity Sample.world
    = (Returned (respond RefRuntime.runtime 400
                   (error_body "Each item must have productId and positive quantity")),
       w') /\
    calls w' = CallGetUser "tok-alice" :: calls Sample.world /\
    tables w' = tables Sample.world /\
    (no_put (calls Sample.world) -> no_put (calls w')).
Proof.
  apply (createOrder_first_violation RefRuntime.runtime Sample.post_order_zero_quantity
           Sample.world "tok-alice" (mkUser "alice")
           (VObj [("items",
                   VArr [ VObj [("id", VStr "p1"); ("quantity", VNum 2)];
                          VObj [("id", VStr "p2"); ("quantity", VNum 0)] ])])
           [VObj [("id", VStr "p1"); ("quantity", VNum 2)]] []
           (VObj [("id", VStr "p2"); ("quantity", VNum 0)])).
  - exists "Bearer tok-alice". repeat split; try reflexivity; discriminate.
  - vm_compute. reflexivity.
  - reflexivity.
  - repeat constructor.
  - reflexivity.
  - right. left. reflexivity.
Defined.

(** An earlier element whose quantity cannot be compared makes the loop
    throw before it reaches the element with quantity 0: the answer is
    401, as for every exception inside the [try] block. *)
Lemma createOrder_object_quantity_is_401 :
  item_violates RefRuntime.runtime (VObj [("id", VStr "p2"); ("quantity", VNum 0)]) /\
  handler RefRuntime.runtime Sample.post_order_object_quantity Sample.world
  = (Returned (unauthorized RefRuntime.runtime "Cannot convert object to primitive value"),
     log (CallGetUser "tok-alice") Sample.world).
Proof.
  split; vm_compute; reflexivity.
Qed.




(** C5, not as stated: product creation with the body [{] is answered by
    the dispatcher's catch with status 500, and order creation with the
    same body and a verified credential with status 401; neither is 400. *)
Lemma malformed_body_is_not_400 :
  JSON_parse RefRuntime.runtime (body_text Sample.post_product_malformed)
  = inl (RefRuntime.SyntaxError "Unexpected token in JSON") /\
  handler RefRuntime.runtime Sample.post_product_malformed Sample.world
  = (Returned (Response.mk 500 headers
                 (JSON_stringify RefRuntime.runtime
                    (error_details_body "Internal server error"
                       "Unexpected token in JSON"))),
     Sample.world) /\
  handler RefRuntime.runtime Sample.post_order_malformed Sample.world
  = (Returned (Response.mk 401 headers
                 (JSON_stringify RefRuntime.runtime
                    (error_details_body "Unauthorized" "Unexpected token in JSON"))),
     log (CallGetUser "tok-alice") Sample.world).
Proof.
  repeat split; vm_compute; reflexivity.
Qed.

(** With a body that does not parse, the [try] block of [createOrder]
    throws: in [verifyToken], or else in [JSON.parse]. *)
Lemma createOrder_try_malformed (rt : Runtime) (event : Event.t) (token : string)
    (w : World) (e : Exn) :
  JSON_parse rt (body_text event) = inl e ->
  exists e' w', createOrder_try rt event token w = (Thrown e', w').
Proof.
  intros He. unfold createOrder_try, bind.
  destruct (verifyToken token w) as [[user | e'] w1].
  - rewrite He. now exists e, w1.
  - now exists e', w1.
Qed.

(** C5, amended.  When the body is not well-formed JSON, product creation
    lets the parse error reach the dispatcher, which answers 500 with
    [{error: "Internal server error", details: <parse message>}] and
    calls nothing; order creation answers 401 in every case, and with a
    verified credential the body is
    [{error: "Unauthorized", details: <parse message>}]. *)
Theorem malformed_body_answers (rt : Runtime) (event : Event.t) (w : World) (e : Exn) :
  JSON_parse rt (body_text event) = inl e ->
  (Event.httpMethod event = "POST" -> Event.resource event = "/products" ->
   handler rt event w
   = (Returned (respond rt 500
                  (error_details_body "Internal server error" (emessage e))), w)) /\
  (Event.httpMethod event = "POST" -> Event.resource event = "/orders" ->
   exists r w',
     handler rt event w = (Returned r, w') /\ Response.statusCode r = 401%Z) /\
  (forall token user,
     verified_credential event w token user ->
     createOrder rt event w
     = (Returned (respond rt 401 (error_details_body "Unauthorized" (emessage e))),
        log (CallGetUser token) w)).
Proof.
  intros He. split; [| split].
  - intros Hm Hr. rewrite (handler_POST_products rt _ _ Hm Hr).
    unfold try_catch, createProduct, bind. rewrite He. reflexivity.
  - intros Hm Hr.
    destruct (authHeader_of event) as [authHeader |] eqn:Hh.
    + destruct (startsWith authHeader "Bearer ") eqn:Hp.
      * destruct (createOrder_try_malformed rt event (strip_bearer authHeader) w e He)
          as (e' & w' & Ht).
        exists (unauthorized rt (emessage e')), w'. split; [| reflexivity].
        apply handler_POST_orders; auto.
        rewrite (createOrder_with_bearer rt _ _ _ Hh Hp).
        now rewrite (try_catch_thrown _ _ _ _ _ Ht).
      * exists (token_required rt), w. split; [| reflexivity].
        apply handler_POST_orders; auto.
        apply createOrder_without_bearer. right. now exists authHeader.
    + exists (token_required rt), w. split; [| reflexivity].
      apply handler_POST_orders; auto.
      apply createOrder_without_bearer. now left.
  - intros token user (authHeader & Hh & Hp & -> & Hne & Hu).
    rewrite (createOrder_with_bearer rt _ _ _ Hh Hp).
    assert (Ht : createOrder_try rt event (strip_bearer authHeader) w
                 = (Thrown e, log (CallGetUser (strip_bearer authHeader)) w)).
    { unfold createOrder_try.
      rewrite (bind_returned _ _ _ _ _ (verifyToken_accepts _ _ _ Hne Hu)).
      rewrite He. reflexivity. }
    now rewrite (try_catch_thrown _ _ _ _ _ Ht).
Qed.

Lemma malformed_body_answers_witness :
  handler RefRuntime.runtime Sample.post_product_malformed Sample.world
  = (Returned (respond RefRuntime.runtime 500
                 (error_details_body "Internal server error" "Unexpected token in JSON")),
     Sample.world).
Proof.
  exact (proj1 (malformed_body_answers RefRuntime.runtime Sample.post_product_malformed
                  Sample.world (RefRuntime.SyntaxError "Unexpected token in JSON")
                  eq_refl)
               eq_refl eq_refl).
Defined.

(** ** Product creation *)

Lemma destructure_prop (v : value) (key : string) :
  is_nullish v = false -> destructure v key = inr (prop v key).
Proof.
  intros H. unfold destructure. rewrite <- (get_prop_prop _ _ H).
  destruct v; simpl in *; congruence.
Qed.

(** A key that an object does not have reads as [undefined], which is
    falsy. *)
Lemma omitted_is_falsy (props : list (string * value)) (key : string) :
  lookup key props = None -> ToBoolean (prop (VObj props) key) = false.
Proof.
  intros H. unfold prop. simpl. now rewrite H.
Qed.

(** [createProduct] on a body that parses to a value other than [null]. *)
Lemma createProduct_parsed (rt : Runtime) (event : Event.t) (w : World) (body : value) :
  JSON_parse rt (body_text event) = inr body -> is_nullish body = false ->
  createProduct rt event w
  = (if negb (ToBoolean (prop body "name")) || negb (ToBoolean (prop body "price"))
        || negb (ToBoolean (prop body "description"))
     then ret (respond rt 400 (error_body "Missing name, price, or description"))
     else
       let* id := uuidv4 in
       let* name' := lift (ToString rt (prop body "name")) in
       let* price' := lift (ToNumber rt (prop body "price")) in
       let* description' := lift (ToString rt (prop body "description")) in
       let* imageUrl' := lift (imageUrl_of rt (prop body "imageUrl")) in
       let* createdAt := now_ISOString in
       let productItem :=
         productItem_of id name' price' description' imageUrl' createdAt in
       let* _ := dynamoDb_put PRODUCT_TABLE_NAME productItem in
       ret (respond rt 201 productItem)) w.
Proof.
  intros Hb Hn. unfold createProduct. rewrite Hb.
  unfold bind at 1. simpl lift. unfold ret at 1.
  rewrite !(destructure_prop _ _ Hn). reflexivity.
Qed.

(** The conversions of [createProduct] go through: it reaches the put
    with the product made of their results. *)
Lemma createProduct_converted (rt : Runtime) (event : Event.t) (w : World) (body : value)
    (name' description' : string) (price' : float) (imageUrl' : value) :
  JSON_parse rt (body_text event) = inr body -> is_nullish body = false ->
  ToBoolean (prop body "name") = true ->
  ToBoolean (prop body "price") = true ->
  ToBoolean (prop body "description") = true ->
  ToString rt (prop body "name") = inr name' ->
  ToNumber rt (prop body "price") = inr price' ->
  ToString rt (prop body "description") = inr description' ->
  imageUrl_of rt (prop body "imageUrl") = inr imageUrl' ->
  createProduct rt event w
  = (let productItem :=
       productItem_of (uuid_source w (uuids_drawn w)) name' price' description' imageUrl'
         (clock w (clock_reads w)) in
     let* _ := dynamoDb_put PRODUCT_TABLE_NAME productItem in
     ret (respond rt 201 productItem)) (read_clock (draw_uuid w)).
Proof.
  intros Hb Hn Hname Hprice Hdesc Hn' Hp' Hd' Hi'.
  rewrite (createProduct_parsed rt event w body Hb Hn).
  rewrite Hname, Hprice, Hdesc, Hn', Hp', Hd', Hi'. reflexivity.
Qed.

Lemma imageUrl_of_spec (rt : Runtime) (imageUrl imageUrl' : value) :
  (if ToBoolean imageUrl
   then exists s, ToString rt imageUrl = inr s /\ imageUrl' = VStr s
   else imageUrl' = VNull) ->
  imageUrl_of rt imageUrl = inr imageUrl'.
Proof.
  unfold imageUrl_of. destruct (ToBoolean imageUrl).
  - intros (s & -> & ->). reflexivity.
  - intros ->. reflexivity.
Qed.

(** C6, not as stated: name, price and description are all present in
    the body [{name: "A", price: 0, description: "d"}], and the answer is
    400. *)
Lemma createProduct_price_zero_is_400 :
  JSON_parse RefRuntime.runtime (body_text Sample.post_product_free)
  = inr (VObj [("name", VStr "A"); ("price", VNum 0); ("description", VStr "d")]) /\
  handler RefRuntime.runtime Sample.post_product_free Sample.world
  = (Returned (Response.mk 400 headers
                 (JSON_stringify RefRuntime.runtime
                    (error_body "Missing name, price, or description"))),
     Sample.world).
Proof.
  split; vm_compute; reflexivity.
Qed.

(** C6, amended.  On a body that parses to a value other than [null],
    product creation answers 400 when one of name, price and description
    is falsy, which an omitted field is, and so are [null], [false], [0],
    [NaN] and the empty string.  When all three are truthy, name and
    description convert to strings, price to a number and a truthy
    imageUrl to a string, and the store accepts the put, it answers 201
    with the product: the generated id, the converted fields, a string
    kept as it is and a number as it is, and imageUrl [null] when it is
    absent or falsy. *)
Theorem createProduct_requires_truthy (rt : Runtime) (event : Event.t) (w : World)
    (body : value) :
  JSON_parse rt (body_text event) = inr body ->
  is_nullish body = false ->
  let name := prop body "name" in
  let price := prop body "price" in
  let description := prop body "description" in
  let imageUrl := prop body "imageUrl" in
  (ToBoolean name = false \/ ToBoolean price = false \/ ToBoolean description = false ->
   createProduct rt event w
   = (Returned (respond rt 400 (error_body "Missing name, price, or description")), w)) /\
  (forall name' price' description' imageUrl',
     ToBoolean name = true -> ToBoolean price = true -> ToBoolean description = true ->
     ToString rt name = inr name' ->
     ToNumber rt price = inr price' ->
     ToString rt description = inr description' ->
     (if ToBoolean imageUrl
      then exists s, ToString rt imageUrl = inr s /\ imageUrl' = VStr s
      else imageUrl' = VNull) ->
     let product :=
       VObj [ ("id", VStr (uuid_source w (uuids_drawn w)));
              ("name", VStr name');
              ("price", VNum price');
              ("description", VStr description');
              ("imageUrl", imageUrl');
              ("createdAt", VStr (clock w (clock_reads w))) ] in
     dynamo_put_rejects w PRODUCT_TABLE_NAME product = None ->
     createProduct rt event w
     = (Returned (respond rt 201 product),
        after_put PRODUCT_TABLE_NAME product (read_clock (draw_uuid w)))) /\
  (forall props key,
     body = VObj props -> lookup key props = None -> ToBoolean (prop body key) = false) /\
  (forall s, ToString rt (VStr s) = inr s) /\
  (forall p, ToNumber rt (VNum p) = inr p).
Proof.
  intros Hb Hn name price description imageUrl.
  split; [| split; [| split; [| split]]].
  - rewrite (createProduct_parsed rt event w body Hb Hn).
    fold name price description.
    intros [-> | [-> | ->]]; simpl; rewrite ?orb_true_r; reflexivity.
  - intros name' price' description' imageUrl' Hname Hprice Hdesc Hn' Hp' Hd' Hi' product
           Hput.
    rewrite (createProduct_converted rt event w body name' description' price' imageUrl'
               Hb Hn Hname Hprice Hdesc Hn' Hp' Hd' (imageUrl_of_spec rt _ _ Hi')).
    unfold bind, dynamoDb_put. simpl. unfold productItem_of. fold product.
    rewrite Hput. reflexivity.
  - intros props key -> Hl. now apply omitted_is_falsy.
  - reflexivity.
  - reflexivity.
Qed.

Lemma createProduct_requires_truthy_witness :
  (exists w',
     createProduct RefRuntime.runtime Sample.post_product Sample.world
     = (Returned (respond RefRuntime.runtime 201
                    (VObj [ ("id", VStr "uuid-0"); ("name", VStr "A");
                            ("price", VNum 10); ("description", VStr "d");
                            ("imageUrl", VNull);
                            ("createdAt", VStr "2024-05-01T12:00:00.000Z") ])),
        w')) /\
  createProduct RefRuntime.runtime Sample.post_product_no_price Sample.world
  = (Returned (respond RefRuntime.runtime 400
                 (error_body "Missing name, price, or description")),
     Sample.world).
Proof.
  split.
  - eexists.
    apply (proj1 (proj2 (createProduct_requires_truthy RefRuntime.runtime
                           Sample.post_product Sample.world Sample.product_A
                           eq_refl eq_refl))
             "A" 10%float "d" VNull); reflexivity.
  - apply (createProduct_requires_truthy RefRuntime.runtime Sample.post_product_no_price
             Sample.world (VObj [("name", VStr "A"); ("description", VStr "d")]));
      try reflexivity.
    right. left. reflexivity.
Defined.

(** ** What the validation loop asks of a quantity *)

Lemma item_accepted_iff (rt : Runtime) (item : value) :
  item_accepted rt item <->
  is_nullish item = false /\
  ToBoolean (prop item "id") = true /\
  ToBoolean (prop item "quantity") = true /\
  js_le_num rt (prop item "quantity") PrimFloat.zero = inr false.
Proof.
  split.
  - intros H. pose proof (accepted_not_nullish rt _ H) as Hn.
    unfold item_accepted in H. rewrite (item_rejected_readable rt _ Hn) in H.
    destruct (ToBoolean (prop item "id")), (ToBoolean (prop item "quantity"));
      simpl in H; try discriminate; auto.
  - intros (Hn & Hid & Hq & Hle). unfold item_accepted.
    rewrite (item_rejected_readable rt _ Hn), Hid, Hq. exact Hle.
Qed.

(** On a number the two tests on the quantity come to [0 < q]. *)
Lemma positive_quantity (q : float) :
  ToBoolean (VNum q) && negb (PrimFloat.leb q PrimFloat.zero)
  = PrimFloat.ltb PrimFloat.zero q.
Proof.
  simpl. unfold PrimFloat.is_zero, PrimFloat.is_nan.
  rewrite !FloatAxioms.eqb_spec, FloatAxioms.leb_spec, FloatAxioms.ltb_spec.
  change (Prim2SF PrimFloat.zero) with (S754_zero false).
  destruct (Prim2SF q) as [s | s | | s m e]; try (destruct s; reflexivity);
    try reflexivity.
  unfold SFeqb, SFleb, SFltb, SFcompare.
  rewrite Z.compare_refl, Pos.compare_cont_refl. destruct s; reflexivity.
Qed.

(** The elements that go through the loop and through the map. *)
Lemma passing_elements (rt : Runtime) (elems : list value) :
  Forall (fun item =>
            is_nullish item = false /\
            ToBoolean (prop item "id") = true /\
            ToBoolean (prop item "quantity") = true /\
            js_le_num rt (prop item "quantity") PrimFloat.zero = inr false /\
            convertible rt (prop item "id") /\
            convertible rt (prop item "price")) elems <->
  Forall (item_accepted rt) elems /\
  Forall (fun item => convertible rt (prop item "id") /\
                      convertible rt (prop item "price")) elems.
Proof.
  rewrite !Forall_forall. split.
  - intros H. split; intros item Hin; destruct (H item Hin) as (? & ? & ? & ? & ? & ?).
    + apply item_accepted_iff. auto.
    + auto.
  - intros [Hacc Hconv] item Hin.
    destruct (proj1 (item_accepted_iff rt item) (Hacc item Hin)) as (? & ? & ? & ?).
    destruct (Hconv item Hin). auto 10.
Qed.

Lemma normalized_converts (rt : Runtime) (elems records : list value) :
  Forall (item_accepted rt) elems -> normalized rt elems records ->
  Forall (fun item => convertible rt (prop item "id") /\
                      convertible rt (prop item "price")) elems.
Proof.
  intros Hall Hmap. induction Hmap as [| item record rest records' Hitem _ IH].
  - constructor.
  - inversion Hall as [| ? ? Hacc Hrest]; subst. constructor.
    + exact (normalize_item_converts rt _ _ (accepted_not_nullish rt _ Hacc) Hitem).
    + exact (IH Hrest).
Qed.

(** C7, not as stated: the quantity 1.5 is not an integer, and the order
    is accepted with status 201 and stored with that quantity. *)
Lemma fractional_quantity_is_accepted :
  JSON_parse RefRuntime.runtime (body_text Sample.post_order_fractional)
  = inr (VObj [("items", VArr [VObj [("id", VStr "p1"); ("quantity", VNum 1.5)]])]) /\
  Response.statusCode
    (match fst (handler RefRuntime.runtime Sample.post_order_fractional Sample.world) with
     | Returned r => r
     | Thrown _ => Response.mk 0 [] ""
     end) = 201%Z /\
  calls (snd (handler RefRuntime.runtime Sample.post_order_fractional Sample.world))
  = [ CallPut ORDER_TABLE_NAME
        (VObj [ ("id", VStr "uuid-0"); ("userId", VStr "alice");
                ("items",
                 VArr [VObj [ ("id", VStr "p1"); ("quantity", VNum 1.5);
                              ("price", VNum 0); ("totalPrice", VNum 0) ]]);
                ("createdAt", VStr "2024-05-01T12:00:00.000Z");
                ("status", VStr "pending") ]);
      CallGetUser "tok-alice" ].
Proof.
  repeat split; vm_compute; reflexivity.
Qed.

(** C7, amended.  With a verified credential, a non-empty items array and
    a store that accepts the put, the submission is accepted (status 201)
    exactly when every element is an object whose [id] is truthy and
    whose [quantity] is truthy and compares not [<= 0], and whose [id]
    and [price] convert to primitives.  No test asks for an integer: a
    quantity that is a number passes exactly when it is greater than 0,
    fractional or not. *)
Theorem order_accepted_iff_quantities_positive (rt : Runtime) (event : Event.t)
    (w : World) (token : string) (user : User) (body : value) (elems : list value) :
  verified_credential event w token user ->
  JSON_parse rt (body_text event) = inr body ->
  destructure body "items" = inr (VArr elems) ->
  elems <> [] ->
  (forall item, dynamo_put_rejects w ORDER_TABLE_NAME item = None) ->
  (exists r w',
     createOrder rt event w = (Returned r, w') /\
     (Response.statusCode r = 201%Z <->
      Forall (fun item =>
                is_nullish item = false /\
                ToBoolean (prop item "id") = true /\
                ToBoolean (prop item "quantity") = true /\
                js_le_num rt (prop item "quantity") PrimFloat.zero = inr false /\
                convertible rt (prop item "id") /\
                convertible rt (prop item "price")) elems)) /\
  (forall q : float,
     ToBoolean (VNum q) = true /\ js_le_num rt (VNum q) PrimFloat.zero = inr false <->
     PrimFloat.ltb PrimFloat.zero q = true).
Proof.
  intros (authHeader & Hh & Hp & -> & Hne & Hu) Hb Hi Hn Hput. split.
  - rewrite (createOrder_with_bearer rt _ _ _ Hh Hp).
    destruct (first_not_accepted rt elems)
      as [Hall | (good & bad & rest & Helems & Hgood & Hbad)].
    + destruct (map_items_cases rt elems
                  (draw_uuid (log (CallGetUser (strip_bearer authHeader)) w)))
        as [(records & Hmap & _) | (e & Hthrows)].
      * eexists. eexists. split.
        -- apply try_catch_returned.
           apply (createOrder_try_stored rt event w _ user body elems Hne Hu Hb Hi Hn
                    records Hall Hmap). apply Hput.
        -- split; [intros _ | reflexivity].
           apply passing_elements. split; [exact Hall |].
           exact (normalized_converts rt _ _ Hall Hmap).
      * eexists. eexists. split.
        -- rewrite (try_catch_thrown _ _ _ _ _
                      (createOrder_try_map_throws rt event w _ user body elems Hne Hu Hb
                         Hi Hn e Hall Hthrows)).
           reflexivity.
        -- split; [discriminate |]. intros Hf. exfalso.
           apply passing_elements in Hf. destruct Hf as [_ Hconv].
           destruct (normalized_exists rt elems Hall Hconv) as (records & Hmap).
           rewrite (map_items_normalized rt _ _ _ Hmap) in Hthrows. discriminate.
    + assert (Hnot : ~ Forall (item_accepted rt) elems).
      { intros Hf. rewrite Helems in Hf. apply Forall_elt in Hf.
        unfold item_accepted in Hf.
        destruct Hbad as [Hv | (e & He)]; [unfold item_violates in Hv |]; congruence. }
      destruct Hbad as [Hv | (e & He)].
      * eexists. eexists. split.
        -- apply try_catch_returned.
           apply (createOrder_try_violation rt event w _ user body elems Hne Hu Hb Hi Hn
                    good rest bad Helems Hgood Hv).
        -- split; [discriminate |]. intros Hf. apply passing_elements in Hf. tauto.
      * eexists. eexists. split.
        -- rewrite (try_catch_thrown _ _ _ _ _
                      (createOrder_try_unreadable rt event w _ user body elems Hne Hu Hb
                         Hi Hn good rest bad e Helems Hgood He)).
           reflexivity.
        -- split; [discriminate |]. intros Hf. apply passing_elements in Hf. tauto.
  - intros q. rewrite <- (positive_quantity q). unfold js_le_num. simpl ToNumber.
    simpl and_then.
    destruct (ToBoolean (VNum q)), (PrimFloat.leb q PrimFloat.zero); simpl;
      intuition congruence.
Qed.

Lemma order_accepted_iff_quantities_positive_witness :
  exists r w',
    createOrder RefRuntime.runtime Sample.post_order_fractional Sample.world
    = (Returned r, w') /\
    Response.statusCode r = 201%Z.
Proof.
  destruct (order_accepted_iff_quantities_positive RefRuntime.runtime
              Sample.post_order_fractional Sample.world "tok-alice" (mkUser "alice")
              (VObj [("items", VArr [VObj [("id", VStr "p1"); ("quantity", VNum 1.5)]])])
              [VObj [("id", VStr "p1"); ("quantity", VNum 1.5)]])
    as ((r & w' & Hrun & Hiff) & _).
  - exists "Bearer tok-alice". repeat split; try reflexivity; discriminate.
  - vm_compute. reflexivity.
  - reflexivity.
  - discriminate.
  - reflexivity.
  - exists r, w'. split; [exact Hrun |].
    apply Hiff. repeat constructor; eexists; reflexivity.
Defined.

(** ** The bearer scheme *)

Lemma startsWith_Bearer (rest : string) :
  startsWith ("Bearer " ++ rest) "Bearer " = true.
Proof. destruct rest; reflexivity. Qed.

(** C8, where the code falls short of it.  Cognito would verify
    [tok-alice], and the replace, with its [i] flag, takes the scheme
    written [bearer] away just as it takes [Bearer] away; under the key
    [authorization] the header [Bearer tok-alice] is read and the order
    is created.  But the guard before the replace compares with [Bearer ]
    in that casing only, and the header is looked up under two casings of
    its key only: under the scheme written [bearer], or under the key
    [AUTHORIZATION], the request is answered 401
    "Authorization token required" and the verifier is not called. *)
Lemma lowercase_bearer_is_rejected :
  cognito_getUser Sample.world "tok-alice" = inr (mkUser "alice") /\
  strip_bearer "bearer tok-alice" = "tok-alice" /\
  strip_bearer "Bearer tok-alice" = "tok-alice" /\
  calls (snd (handler RefRuntime.runtime
                (Sample.request "POST" "/orders" [("authorization", "Bearer tok-alice")]
                   (Sample.order_of Sample.two_items))
                Sample.world))
  = [ CallPut ORDER_TABLE_NAME
        (built_order Sample.world (mkUser "alice") Sample.two_records);
      CallGetUser "tok-alice" ] /\
  handler RefRuntime.runtime Sample.post_order_lowercase_scheme Sample.world
  = (Returned (Response.mk 401 headers
                 (JSON_stringify RefRuntime.runtime
                    (error_body "Authorization token required"))),
     Sample.world) /\
  handler RefRuntime.runtime
    (Sample.request "POST" "/orders" [("AUTHORIZATION", "Bearer tok-alice")]
       (Sample.order_of Sample.two_items))
    Sample.world
  = (Returned (Response.mk 401 headers
                 (JSON_stringify RefRuntime.runtime
                    (error_body "Authorization token required"))),
     Sample.world).
Proof.
  repeat split; vm_compute; reflexivity.
Qed.

(** How [createOrder] reads the credential.  The authorization header is
    read under the key [Authorization], and under [authorization] when
    the first is absent or empty, and under no other key.  The guard asks
    that it start with [Bearer ] in exactly that casing: a header with
    another casing of the scheme is answered 401
    "Authorization token required" and the verifier is not called.  For a
    header [Bearer <rest>] the credential is [<rest>] without the white
    space it starts with, and that is what the verifier is called with. *)
Theorem bearer_scheme_is_case_sensitive (rt : Runtime) (event : Event.t) (w : World) :
  (optional_header event "Authorization" = None ->
   optional_header event "authorization" = None ->
   createOrder rt event w = (Returned (token_required rt), w)) /\
  (forall authHeader,
     truthy_header (optional_header event "Authorization") = false ->
     optional_header event "authorization" = Some authHeader ->
     authHeader_of event = Some authHeader) /\
  (forall authHeader,
     authHeader_of event = Some authHeader ->
     startsWith authHeader "Bearer " = false ->
     createOrder rt event w = (Returned (token_required rt), w)) /\
  (forall rest,
     startsWith ("bearer " ++ rest) "Bearer " = false /\
     startsWith ("BEARER " ++ rest) "Bearer " = false /\
     startsWith ("Bearer " ++ rest) "Bearer " = true /\
     strip_bearer ("Bearer " ++ rest) = drop_spaces rest) /\
  (forall rest e,
     authHeader_of event = Some ("Bearer " ++ rest) ->
     drop_spaces rest <> "" ->
     cognito_getUser w (drop_spaces rest) = inl e ->
     createOrder rt event w
     = (Returned (unauthorized rt ("Invalid token: " ++ ExnToString e)),
        log (CallGetUser (drop_spaces rest)) w)).
Proof.
  split; [| split; [| split; [| split]]].
  - intros Ha Hb. apply createOrder_without_bearer. left.
    unfold authHeader_of. rewrite Ha. exact Hb.
  - intros authHeader Ha Hb. unfold authHeader_of. now rewrite Ha.
  - intros authHeader Hh Hp. apply createOrder_without_bearer. right.
    now exists authHeader.
  - intros rest. split; [| split; [| split]]; try reflexivity.
    apply startsWith_Bearer.
  - intros rest e Hh Hne He.
    rewrite (createOrder_with_bearer rt _ _ _ Hh (startsWith_Bearer rest)).
    change (strip_bearer ("Bearer " ++ rest)) with (drop_spaces rest).
    assert (Ht : createOrder_try rt event (drop_spaces rest) w
                 = (Thrown (Error ("Invalid token: " ++ ExnToString e)),
                    log (CallGetUser (drop_spaces rest)) w)).
    { unfold createOrder_try.
      now rewrite (bind_thrown _ _ _ _ _ (verifyToken_rejects _ _ _ Hne He)). }
    now rewrite (try_catch_thrown _ _ _ _ _ Ht).
Qed.

Lemma bearer_scheme_is_case_sensitive_witness :
  createOrder RefRuntime.runtime Sample.post_order_lowercase_scheme Sample.world
  = (Returned (token_required RefRuntime.runtime), Sample.world).
Proof.
  destruct (bearer_scheme_is_case_sensitive RefRuntime.runtime
              Sample.post_order_lowercase_scheme Sample.world) as (_ & _ & H & _).
  apply (H "bearer tok-alice"); reflexivity.
Defined.

(** ** Creation followed by listing *)

(** A put that returned left the record at the end of its table. *)
Lemma dynamoDb_put_returned (t : string) (item : value) (w w' : World) (u : unit) :
  dynamoDb_put t item w = (Returned u, w') -> w' = after_put t item w.
Proof.
  unfold dynamoDb_put. destruct (dynamo_put_rejects w t item); [discriminate |].
  now intros [= _ <-].
Qed.

Lemma after_put_listed (t : string) (item : value) (w : World) :
  tables (after_put t item w) t = (tables w t ++ [item])%list.
Proof.
  simpl. now rewrite String.eqb_refl.
Qed.

(** A scan that is not rejected returns the table. *)
Lemma scan_lists (rt : Runtime) (t : string) (w : World) :
  dynamo_scan_rejects w t = None ->
  (let* Items := dynamoDb_scan t in ret (respond rt 200 (VArr Items))) w
  = (Returned (respond rt 200 (VArr (tables w t))), log (CallScan t) w).
Proof.
  intros H. unfold bind, dynamoDb_scan. now rewrite H.
Qed.

(** What [createProduct] did when it answered 201. *)
Lemma createProduct_201 (rt : Runtime) (event : Event.t) (w w' : World)
    (r : Response.t) :
  createProduct rt event w = (Returned r, w') -> Response.statusCode r = 201%Z ->
  exists product w1,
    r = respond rt 201 product /\ w' = after_put PRODUCT_TABLE_NAME product w1.
Proof.
  unfold createProduct, bind, lift.
  destruct (JSON_parse rt (body_text event)) as [e | body]; [discriminate |]. simpl.
  destruct (destructure body "name") as [e | name]; [discriminate |]. simpl.
  destruct (destructure body "price") as [e | price]; [discriminate |]. simpl.
  destruct (destructure body "description") as [e | description]; [discriminate |]. simpl.
  destruct (destructure body "imageUrl") as [e | imageUrl]; [discriminate |]. simpl.
  destruct (negb (ToBoolean name) || negb (ToBoolean price)
            || negb (ToBoolean description)).
  - intros [= <- _]. discriminate.
  - unfold uuidv4, throw, ret.
    destruct (ToString rt name) as [e | name']; simpl; [discriminate |].
    destruct (ToNumber rt price) as [e | price']; simpl; [discriminate |].
    destruct (ToString rt description) as [e | description']; simpl; [discriminate |].
    destruct (imageUrl_of rt imageUrl) as [e | imageUrl']; simpl; [discriminate |].
    destruct (dynamoDb_put _ _ _) as [[u | e] w2] eqn:Hput; [| discriminate].
    intros [= <- <-] _. apply dynamoDb_put_returned in Hput. eauto.
Qed.

(** What the [try] block of [createOrder] did when it answered 201. *)
Lemma createOrder_try_201 (rt : Runtime) (event : Event.t) (token : string)
    (w w' : World) (r : Response.t) :
  createOrder_try rt event token w = (Returned r, w') ->
  Response.statusCode r = 201%Z ->
  exists order w1,
    r = respond rt 201 order /\ w' = after_put ORDER_TABLE_NAME order w1.
Proof.
  unfold createOrder_try, bind.
  destruct (verifyToken token w) as [[user | e] w1]; [| discriminate].
  destruct (lift (JSON_parse rt (body_text event)) w1) as [[body | e] w2]; [| discriminate].
  destruct (lift (destructure body "items") w2) as [[items | e] w3]; [| discriminate].
  destruct (negb (ToBoolean items) || negb (isArray items)
            || Nat.eqb (array_length items) 0).
  - intros [= <- _]. discriminate.
  - destruct (validate_items rt (elements items) w3) as [[[r' |] | e] w4] eqn:Hv;
      [| | discriminate].
    + intros [= <- _]. rewrite (validate_items_returns _ _ _ _ _ Hv). discriminate.
    + destruct (uuidv4 w4) as [[id | e] w5]; [| discriminate].
      destruct (map_items rt (elements items) w5) as [[normalized | e] w6];
        [| discriminate].
      destruct (now_ISOString w6) as [[createdAt | e] w7]; [| discriminate].
      destruct (dynamoDb_put _ _ w7) as [[u | e] w8] eqn:Hput; [| discriminate].
      intros [= <- <-] _. apply dynamoDb_put_returned in Hput. eauto.
Qed.

Lemma createOrder_201 (rt : Runtime) (event : Event.t) (w w' : World) (r : Response.t) :
  createOrder rt event w = (Returned r, w') -> Response.statusCode r = 201%Z ->
  exists order w1,
    r = respond rt 201 order /\ w' = after_put ORDER_TABLE_NAME order w1.
Proof.
  unfold createOrder.
  destruct (authHeader_of event) as [authHeader |].
  - destruct (startsWith authHeader "Bearer "); simpl.
    + unfold try_catch.
      destruct (createOrder_try rt event (strip_bearer authHeader) w)
        as [[r' | e] w1] eqn:Ht.
      * intros [= <- <-] Hs. exact (createOrder_try_201 rt _ _ _ _ _ Ht Hs).
      * intros [= <- _]. discriminate.
    + intros [= <- _]. discriminate.
  - intros [= <- _]. discriminate.
Qed.

(** C10.  After a product or an order creation that answered 201, the
    body of the answer is the serialisation of the record that was put
    into the store; and a listing of the same collection made right
    then, if the store serves the scan, answers 200 with the
    serialisation of the stored records, unmodified, among which that
    very record is. *)
Theorem created_record_is_listed (rt : Runtime) (event : Event.t) (w w' : World)
    (r : Response.t) :
  (createProduct rt event w = (Returned r, w') ->
   Response.statusCode r = 201%Z ->
   dynamo_scan_rejects w' PRODUCT_TABLE_NAME = None ->
   exists record w'',
     Response.body r = JSON_stringify rt record /\
     In (CallPut PRODUCT_TABLE_NAME record) (calls w') /\
     In record (tables w' PRODUCT_TABLE_NAME) /\
     getAllProducts rt w'
     = (Returned (Response.mk 200 headers
                    (JSON_stringify rt (VArr (tables w' PRODUCT_TABLE_NAME)))), w'')) /\
  (createOrder rt event w = (Returned r, w') ->
   Response.statusCode r = 201%Z ->
   dynamo_scan_rejects w' ORDER_TABLE_NAME = None ->
   exists record w'',
     Response.body r = JSON_stringify rt record /\
     In (CallPut ORDER_TABLE_NAME record) (calls w') /\
     In record (tables w' ORDER_TABLE_NAME) /\
     getAllOrders rt w'
     = (Returned (Response.mk 200 headers
                    (JSON_stringify rt (VArr (tables w' ORDER_TABLE_NAME)))), w'')).
Proof.
  split; intros Hrun Hstatus Hscan.
  - destruct (createProduct_201 rt _ _ _ _ Hrun Hstatus) as (record & w1 & -> & ->).
    exists record, (log (CallScan PRODUCT_TABLE_NAME)
                      (after_put PRODUCT_TABLE_NAME record w1)).
    split; [reflexivity |]. split; [now left |]. split.
    + rewrite after_put_listed. apply in_or_app. right. now left.
    + exact (scan_lists rt _ _ Hscan).
  - destruct (createOrder_201 rt _ _ _ _ Hrun Hstatus) as (record & w1 & -> & ->).
    exists record, (log (CallScan ORDER_TABLE_NAME)
                      (after_put ORDER_TABLE_NAME record w1)).
    split; [reflexivity |]. split; [now left |]. split.
    + rewrite after_put_listed. apply in_or_app. right. now left.
    + exact (scan_lists rt _ _ Hscan).
Qed.

Lemma created_record_is_listed_witness :
  exists record w'',
    Response.body
      (respond RefRuntime.runtime 201
         (built_order Sample.world (mkUser "alice") Sample.two_records))
    = JSON_stringify RefRuntime.runtime record /\
    In record
       (tables (snd (createOrder RefRuntime.runtime Sample.post_order Sample.world))
          ORDER_TABLE_NAME) /\
    getAllOrders RefRuntime.runtime
      (snd (createOrder RefRuntime.runtime Sample.post_order Sample.world))
    = (Returned (Response.mk 200 headers
                   (JSON_stringify RefRuntime.runtime
                      (VArr (tables
                               (snd (createOrder RefRuntime.runtime Sample.post_order
                                       Sample.world))
                               ORDER_TABLE_NAME)))), w'').
Proof.
  destruct (proj2 (created_record_is_listed RefRuntime.runtime Sample.post_order
                     Sample.world
                     (snd (createOrder RefRuntime.runtime Sample.post_order Sample.world))
                     (respond RefRuntime.runtime 201
                        (built_order Sample.world (mkUser "alice") Sample.two_records)))
                  eq_refl eq_refl eq_refl)
    as (record & w'' & Hbody & _ & Hin & Hlist).
  exists record, w''. auto.
Defined.

(** * Further properties *)

(** ** The runs of the dispatcher *)

Section Runs.

Context (rt : Runtime).

Lemma not_an_array_fails (items : value) :
  (forall elems, items = VArr elems -> elems = []) ->
  negb (ToBoolean items) || negb (isArray items) || Nat.eqb (array_length items) 0 = true.
Proof.
  intros H. destruct items; simpl; rewrite ?orb_true_r; try reflexivity.
  now rewrite (H elems eq_refl).
Qed.

Lemma nonempty_array_passes (items : value) :
  negb (ToBoolean items) || negb (isArray items) || Nat.eqb (array_length items) 0 = false ->
  exists elems, items = VArr elems /\ elems <> [].
Proof.
  destruct items; simpl; rewrite ?orb_true_r; try discriminate.
  destruct elems; [discriminate |]. intros _. eexists. split; [reflexivity | discriminate].
Qed.

(** The [try] block up to the test on [items]. *)
Lemma createOrder_try_items_required (event : Event.t) (w : World) (token : string)
    (user : User) (body items : value) :
  token <> "" -> cognito_getUser w token = inr user ->
  JSON_parse rt (body_text event) = inr body ->
  destructure body "items" = inr items ->
  negb (ToBoolean items) || negb (isArray items) || Nat.eqb (array_length items) 0 = true ->
  createOrder_try rt event token w
  = (Returned (respond rt 400 (error_body "Items array is required")),
     log (CallGetUser token) w).
Proof.
  intros Hne Hu Hb Hi Hc. unfold createOrder_try.
  rewrite (bind_returned _ _ _ _ _ (verifyToken_accepts _ _ _ Hne Hu)).
  rewrite Hb. unfold bind at 1. simpl lift. unfold ret at 1.
  rewrite Hi. unfold bind at 1. simpl lift. unfold ret at 1.
  rewrite Hc. reflexivity.
Qed.

Lemma createOrder_try_unread_items (event : Event.t) (w : World) (token : string)
    (user : User) (body : value) (e : Exn) :
  token <> "" -> cognito_getUser w token = inr user ->
  JSON_parse rt (body_text event) = inr body ->
  destructure body "items" = inl e ->
  createOrder_try rt event token w = (Thrown e, log (CallGetUser token) w).
Proof.
  intros Hne Hu Hb Hi. unfold createOrder_try.
  rewrite (bind_returned _ _ _ _ _ (verifyToken_accepts _ _ _ Hne Hu)).
  rewrite Hb. unfold bind at 1. simpl lift. unfold ret at 1.
  rewrite Hi. reflexivity.
Qed.

Lemma createOrder_try_unparsed (event : Event.t) (w : World) (token : string)
    (user : User) (e : Exn) :
  token <> "" -> cognito_getUser w token = inr user ->
  JSON_parse rt (body_text event) = inl e ->
  createOrder_try rt event token w = (Thrown e, log (CallGetUser token) w).
Proof.
  intros Hne Hu Hb. unfold createOrder_try.
  rewrite (bind_returned _ _ _ _ _ (verifyToken_accepts _ _ _ Hne Hu)).
  rewrite Hb. reflexivity.
Qed.

Lemma createOrder_try_unverified (event : Event.t) (w : World) (token : string) (e : Exn) :
  token <> "" -> cognito_getUser w token = inl e ->
  createOrder_try rt event token w
  = (Thrown (Error ("Invalid token: " ++ ExnToString e)), log (CallGetUser token) w).
Proof.
  intros Hne He. unfold createOrder_try.
  now rewrite (bind_thrown _ _ _ _ _ (verifyToken_rejects _ _ _ Hne He)).
Qed.

Lemma createOrder_try_no_token (event : Event.t) (w : World) :
  createOrder_try rt event "" w
  = (Thrown (Error "Invalid token: Error: No token provided"), w).
Proof.
  unfold createOrder_try. now rewrite (bind_thrown _ _ _ _ _ (verifyToken_empty w)).
Qed.

(** A run of [createOrder] behind the dispatcher's [try]. *)
Lemma createOrder_runs (event : Event.t) (w : World) :
  to_createOrder event ->
  exists r w', createOrder rt event w = (Returned r, w') /\ Run rt event w r w'.
Proof.
  intros Hroute.
  assert (Hquiet : exists r w',
             (Returned (token_required rt), w) = (Returned r, w') /\ Run rt event w r w').
  { eexists. eexists. split; [reflexivity |]. apply run_no_call. simpl. auto. }
  unfold createOrder.
  destruct (authHeader_of event) as [authHeader |] eqn:Hh; [| exact Hquiet].
  destruct (startsWith authHeader "Bearer ") eqn:Hp; simpl; [| exact Hquiet].
  clear Hquiet. set (token := strip_bearer authHeader).
  assert (Hcaught : forall e,
             createOrder_try rt event token w = (Thrown e, log (CallGetUser token) w) ->
             token <> "" ->
             exists r w',
               try_catch (createOrder_try rt event token)
                 (fun error =>
                    ret (respond rt 401 (error_details_body "Unauthorized" (emessage error))))
                 w = (Returned r, w') /\ Run rt event w r w').
  { intros e Ht Hne. rewrite (try_catch_thrown _ _ _ _ _ Ht).
    eexists. eexists. split; [reflexivity |].
    apply run_verifier_only; simpl; auto. }
  destruct (String.eqb_spec token "") as [Hempty | Hne].
  { rewrite Hempty. rewrite (try_catch_thrown _ _ _ _ _ (createOrder_try_no_token event w)).
    eexists. eexists. split; [reflexivity |]. apply run_no_call. simpl. auto. }
  destruct (cognito_getUser w token) as [e | user] eqn:Hu.
  { exact (Hcaught _ (createOrder_try_unverified _ _ _ _ Hne Hu) Hne). }
  destruct (JSON_parse rt (body_text event)) as [e | body] eqn:Hb.
  { exact (Hcaught _ (createOrder_try_unparsed _ _ _ _ _ Hne Hu Hb) Hne). }
  destruct (destructure body "items") as [e | items] eqn:Hi.
  { exact (Hcaught _ (createOrder_try_unread_items _ _ _ _ _ _ Hne Hu Hb Hi) Hne). }
  destruct (negb (ToBoolean items) || negb (isArray items)
            || Nat.eqb (array_length items) 0) eqn:Hc.
  { rewrite (try_catch_returned _ _ _ _ _
               (createOrder_try_items_required _ _ _ _ _ _ Hne Hu Hb Hi Hc)).
    eexists. eexists. split; [reflexivity |]. apply run_verifier_only; simpl; auto. }
  destruct (nonempty_array_passes _ Hc) as (elems & -> & Hn).
  destruct (first_not_accepted rt elems)
    as [Hall | (good & bad & rest & Helems & Hgood & [Hv | (e & He)])].
  - assert (Hv : verified_credential event w token user).
    { exists authHeader. repeat split; auto. }
    destruct (map_items_cases rt elems (draw_uuid (log (CallGetUser token) w)))
      as [(records & Hmap & _) | (e & Hthrows)].
    + destruct (dynamo_put_rejects w ORDER_TABLE_NAME (built_order w user records))
        as [e |] eqn:Hput.
      * rewrite (try_catch_thrown _ _ _ _ _
                   (createOrder_try_put_rejected rt event w token user body elems
                      Hne Hu Hb Hi Hn records e Hall Hmap Hput)).
        eexists. eexists. split; [reflexivity |].
        now apply (run_order_refused rt event w token user).
      * rewrite (try_catch_returned _ _ _ _ _
                   (createOrder_try_stored rt event w token user body elems
                      Hne Hu Hb Hi Hn records Hall Hmap Hput)).
        eexists. eexists. split; [reflexivity |].
        now apply (run_order_stored rt event w token user).
    + rewrite (try_catch_thrown _ _ _ _ _
                 (createOrder_try_map_throws rt event w token user body elems
                    Hne Hu Hb Hi Hn e Hall Hthrows)).
      eexists. eexists. split; [reflexivity |].
      now apply run_order_unconverted.
  - rewrite (try_catch_returned _ _ _ _ _
               (createOrder_try_violation rt event w token user body elems
                  Hne Hu Hb Hi Hn good rest bad Helems Hgood Hv)).
    eexists. eexists. split; [reflexivity |]. apply run_verifier_only; simpl; auto.
  - exact (Hcaught _ (createOrder_try_unreadable rt event w token user body elems
                        Hne Hu Hb Hi Hn good rest bad e Helems Hgood He) Hne).
Qed.

Lemma destructure_nullish (v : value) (key : string) :
  is_nullish v = true -> exists e, destructure v key = inl e.
Proof.
  destruct v; simpl; try discriminate; eauto.
Qed.

(** A run of [createProduct] under the dispatcher's [try]. *)
Lemma createProduct_runs (event : Event.t) (w : World) :
  Event.httpMethod event = "POST" ->
  exists r w',
    try_catch (createProduct rt event)
      (fun error =>
         ret (respond rt 500 (error_details_body "Internal server error" (emessage error))))
      w = (Returned r, w') /\
    Run rt event w r w'.
Proof.
  intros Hm.
  assert (Hthrown : forall e,
             createProduct rt event w = (Thrown e, w) ->
             exists r w',
               try_catch (createProduct rt event)
                 (fun error =>
                    ret (respond rt 500
                           (error_details_body "Internal server error" (emessage error))))
                 w = (Returned r, w') /\ Run rt event w r w').
  { intros e Ht. rewrite (try_catch_thrown _ _ _ _ _ Ht).
    eexists. eexists. split; [reflexivity |]. apply run_no_call. simpl. auto. }
  destruct (JSON_parse rt (body_text event)) as [e | body] eqn:Hb.
  { apply (Hthrown e). unfold createProduct, bind. now rewrite Hb. }
  destruct (is_nullish body) eqn:Hn.
  { destruct (destructure_nullish body "name" Hn) as (e & He).
    apply (Hthrown e). unfold createProduct, bind. rewrite Hb. simpl. now rewrite He. }
  unfold try_catch. rewrite (createProduct_parsed rt event w body Hb Hn).
  destruct (negb (ToBoolean (prop body "name")) || negb (ToBoolean (prop body "price"))
            || negb (ToBoolean (prop body "description"))).
  { eexists. eexists. split; [reflexivity |]. apply run_no_call. simpl. auto. }
  unfold bind, uuidv4, lift, throw, ret.
  destruct (ToString rt (prop body "name")) as [e | name']; simpl.
  { eexists. eexists. split; [reflexivity |]. now apply run_product_unconverted. }
  destruct (ToNumber rt (prop body "price")) as [e | price']; simpl.
  { eexists. eexists. split; [reflexivity |]. now apply run_product_unconverted. }
  destruct (ToString rt (prop body "description")) as [e | description']; simpl.
  { eexists. eexists. split; [reflexivity |]. now apply run_product_unconverted. }
  destruct (imageUrl_of rt (prop body "imageUrl")) as [e | imageUrl']; simpl.
  { eexists. eexists. split; [reflexivity |]. now apply run_product_unconverted. }
  unfold dynamoDb_put. simpl.
  destruct (dynamo_put_rejects w PRODUCT_TABLE_NAME _) as [e |].
  - eexists. eexists. split; [reflexivity |]. now apply run_product_refused.
  - eexists. eexists. split; [reflexivity |]. now apply run_product_stored.
Qed.

(** A run of a listing under the dispatcher's [try]. *)
Lemma listing_runs (event : Event.t) (w : World) (t : string) :
  t = PRODUCT_TABLE_NAME \/ t = ORDER_TABLE_NAME ->
  Event.httpMethod event = "GET" ->
  exists r w',
    try_catch (let* Items := dynamoDb_scan t in ret (respond rt 200 (VArr Items)))
      (fun error =>
         ret (respond rt 500 (error_details_body "Internal server error" (emessage error))))
      w = (Returned r, w') /\
    Run rt event w r w'.
Proof.
  intros Ht Hm. unfold try_catch, bind, dynamoDb_scan.
  destruct (dynamo_scan_rejects w t) as [e |].
  - eexists. eexists. split; [reflexivity |]. now apply run_scan_refused.
  - eexists. eexists. split; [reflexivity |]. now apply run_listed.
Qed.

(** Every run of [handler] returns, and is one of the runs above. *)
Lemma handler_runs (event : Event.t) (w : World) :
  exists r w', handler rt event w = (Returned r, w') /\ Run rt event w r w'.
Proof.
  unfold handler.
  destruct (String.eqb_spec (Event.httpMethod event) "OPTIONS") as [Ho | Ho].
  { eexists. eexists. split; [reflexivity |]. now apply run_preflight. }
  destruct (String.eqb_spec (Event.httpMethod event) "POST") as [Hp | Hp];
    destruct (String.eqb_spec (Event.resource event) "/products") as [Hrp | Hrp];
    destruct (String.eqb_spec (Event.httpMethod event) "GET") as [Hg | Hg];
    destruct (String.eqb_spec (Event.resource event) "/orders") as [Hro | Hro];
    simpl;
    try (exfalso; congruence);
    try (apply createProduct_runs; assumption);
    try (apply (listing_runs event w PRODUCT_TABLE_NAME); now auto);
    try (apply (listing_runs event w ORDER_TABLE_NAME); now auto);
    try (destruct (createOrder_runs event w (conj Hp Hro)) as (r & w' & Hrun & HR);
         exists r, w'; split; [now apply try_catch_returned | exact HR]);
    try (eexists; eexists; split; [reflexivity |]; apply run_no_call; simpl; now auto).
Qed.

End Runs.

(** ** Routing *)

(** X1.  A request whose method is not OPTIONS and whose method and
    resource are not one of POST or GET on [/products] or [/orders] is
    answered 404 with the body [{error: "Not found"}], and nothing is
    called.  The resource decides; the path is not looked at. *)
Theorem handler_unmatched_is_404 (rt : Runtime) (event : Event.t) (w : World) :
  Event.httpMethod event <> "OPTIONS" ->
  ~ ((Event.httpMethod event = "POST" \/ Event.httpMethod event = "GET") /\
     (Event.resource event = "/products" \/ Event.resource event = "/orders")) ->
  handler rt event w
  = (Returned (Response.mk 404 headers
                 (JSON_stringify rt (VObj [("error", VStr "Not found")]))), w).
Proof.
  intros Ho Hroute. unfold handler.
  destruct (String.eqb_spec (Event.httpMethod event) "OPTIONS"); [contradiction |].
  destruct (String.eqb_spec (Event.httpMethod event) "POST");
    destruct (String.eqb_spec (Event.resource event) "/products");
    destruct (String.eqb_spec (Event.httpMethod event) "GET");
    destruct (String.eqb_spec (Event.resource event) "/orders");
    simpl; try reflexivity; exfalso; apply Hroute; auto.
Qed.

Lemma handler_unmatched_is_404_witness :
  handler RefRuntime.runtime Sample.delete_product Sample.world
  = (Returned (Response.mk 404 headers
                 (JSON_stringify RefRuntime.runtime (VObj [("error", VStr "Not found")]))),
     Sample.world).
Proof.
  apply (handler_unmatched_is_404 RefRuntime.runtime Sample.delete_product Sample.world).
  - discriminate.
  - intros [[H | H] _]; discriminate.
Defined.

(** X2.  The dispatcher never throws: every request gets an answer, its
    status is one of 200, 201, 400, 401, 404 and 500, and it carries the
    base CORS headers, to which only the preflight answer adds. *)
Theorem handler_always_answers (rt : Runtime) (event : Event.t) (w : World) :
  exists r w',
    handler rt event w = (Returned r, w') /\
    In (Response.statusCode r) [200; 201; 400; 401; 404; 500]%Z /\
    (Response.headers r = headers \/
     (Event.httpMethod event = "OPTIONS" /\
      exists added, Response.headers r = (headers ++ added)%list)).
Proof.
  destruct (handler_runs rt event w) as (r & w' & Hrun & HR).
  exists r, w'. split; [exact Hrun |].
  destruct HR; simpl in *; split; auto 10; try (intuition; fail).
  right. split; [assumption |]. eexists. reflexivity.
Qed.

(** ** Listings *)

(** X3.  A listing scans its own table once and changes no table.  When
    the store serves the scan the answer is 200 with the records of the
    table as they are stored; when the store rejects it the dispatcher
    answers 500 with the store's message. *)
Theorem listing_reads_the_store (rt : Runtime) (event : Event.t) (w : World) (t : string) :
  Event.httpMethod event = "GET" ->
  (Event.resource event = "/products" /\ t = PRODUCT_TABLE_NAME) \/
  (Event.resource event = "/orders" /\ t = ORDER_TABLE_NAME) ->
  exists r w',
    handler rt event w = (Returned r, w') /\
    calls w' = CallScan t :: calls w /\
    same_tables w w' /\
    (dynamo_scan_rejects w t = None ->
     r = Response.mk 200 headers (JSON_stringify rt (VArr (tables w t)))) /\
    (forall e,
       dynamo_scan_rejects w t = Some e ->
       r = Response.mk 500 headers
             (JSON_stringify rt
                (VObj [("error", VStr "Internal server error");
                       ("details", VStr (emessage e))]))).
Proof.
  intros Hm Hroute.
  assert (Hh : handler rt event w
               = try_catch (let* Items := dynamoDb_scan t in
                            ret (respond rt 200 (VArr Items)))
                   (fun error =>
                      ret (respond rt 500
                             (error_details_body "Internal server error" (emessage error))))
                   w).
  { unfold handler. rewrite Hm. destruct Hroute as [[-> ->] | [-> ->]]; reflexivity. }
  rewrite Hh. unfold try_catch, bind, dynamoDb_scan.
  destruct (dynamo_scan_rejects w t) as [e |].
  - eexists. eexists. split; [reflexivity |].
    repeat split; try discriminate. now intros e' [= <-].
  - eexists. eexists. split; [reflexivity |].
    repeat split; discriminate.
Qed.

Lemma listing_reads_the_store_witness :
  (exists r w',
     handler RefRuntime.runtime Sample.get_products Sample.world_one_product
     = (Returned r, w') /\
     calls w' = [CallScan PRODUCT_TABLE_NAME] /\
     r = Response.mk 200 headers
           (JSON_stringify RefRuntime.runtime (VArr [Sample.product_A]))) /\
  (exists r w',
     handler RefRuntime.runtime Sample.get_products Sample.world_scan_down
     = (Returned r, w') /\
     r = respond RefRuntime.runtime 500
           (error_details_body "Internal server error" "Service Unavailable")).
Proof.
  split.
  - destruct (listing_reads_the_store RefRuntime.runtime Sample.get_products
                Sample.world_one_product PRODUCT_TABLE_NAME eq_refl
                (or_introl (conj eq_refl eq_refl)))
      as (r & w' & Hrun & Hcalls & _ & Hok & _).
    exists r, w'. repeat split; auto.
  - destruct (listing_reads_the_store RefRuntime.runtime Sample.get_products
                Sample.world_scan_down PRODUCT_TABLE_NAME eq_refl
                (or_introl (conj eq_refl eq_refl)))
      as (r & w' & Hrun & _ & _ & _ & Hdown).
    exists r, w'. split; [exact Hrun |].
    exact (Hdown (mkExn "ServiceUnavailable" "Service Unavailable") eq_refl).
Defined.

(** ** Failures of product creation *)

(** X4.  Product creation has no [try] of its own: what it throws is
    answered by the dispatcher with status 500.  A body that parses to
    [null] stops at the destructuring, before any call.  A name, price,
    description or image address that does not convert to a primitive
    stops at the object literal, after the identifier was drawn and
    before any call, with the message of the conversion.  When all four
    convert, a put that the store rejects is answered with the store's
    message, after that one call, and no table has changed. *)
Theorem createProduct_failures_are_500 (rt : Runtime) (event : Event.t) (w : World) :
  Event.httpMethod event = "POST" -> Event.resource event = "/products" ->
  (JSON_parse rt (body_text event) = inr VNull ->
   handler rt event w
   = (Returned (respond rt 500
                  (error_details_body "Internal server error"
                     "Cannot destructure property 'name' of 'body' as it is null.")),
      w)) /\
  (forall body e,
     JSON_parse rt (body_text event) = inr body ->
     is_nullish body = false ->
     ToBoolean (prop body "name") = true ->
     ToBoolean (prop body "price") = true ->
     ToBoolean (prop body "description") = true ->
     ToString rt (prop body "name") = inl e \/
     (convertible rt (prop body "name") /\
      ToNumber rt (prop body "price") = inl e) \/
     (convertible rt (prop body "name") /\ convertible rt (prop body "price") /\
      ToString rt (prop body "description") = inl e) \/
     (convertible rt (prop body "name") /\ convertible rt (prop body "price") /\
      convertible rt (prop body "description") /\
      ToBoolean (prop body "imageUrl") = true /\
      ToString rt (prop body "imageUrl") = inl e) ->
     handler rt event w
     = (Returned (respond rt 500
                    (error_details_body "Internal server error" (emessage e))),
        draw_uuid w)) /\
  (forall body e name' price' description' imageUrl',
     JSON_parse rt (body_text event) = inr body ->
     is_nullish body = false ->
     ToBoolean (prop body "name") = true ->
     ToBoolean (prop body "price") = true ->
     ToBoolean (prop body "description") = true ->
     ToString rt (prop body "name") = inr name' ->
     ToNumber rt (prop body "price") = inr price' ->
     ToString rt (prop body "description") = inr description' ->
     (if ToBoolean (prop body "imageUrl")
      then exists s, ToString rt (prop body "imageUrl") = inr s /\ imageUrl' = VStr s
      else imageUrl' = VNull) ->
     let product :=
       productItem_of (uuid_source w (uuids_drawn w)) name' price' description'
         imageUrl' (clock w (clock_reads w)) in
     dynamo_put_rejects w PRODUCT_TABLE_NAME product = Some e ->
     exists w',
       handler rt event w
       = (Returned (respond rt 500
                      (error_details_body "Internal server error" (emessage e))),
          w') /\
       calls w' = CallPut PRODUCT_TABLE_NAME product :: calls w /\
       same_tables w w').
Proof.
  intros Hm Hr. rewrite (handler_POST_products rt _ _ Hm Hr). split; [| split].
  - intros Hb. unfold try_catch, createProduct, bind. rewrite Hb. reflexivity.
  - intros body e Hb Hn Hname Hprice Hdesc Hthrows.
    unfold try_catch. rewrite (createProduct_parsed rt event w body Hb Hn).
    rewrite Hname, Hprice, Hdesc. simpl.
    unfold bind, uuidv4, lift, throw, ret.
    destruct Hthrows as [H1 | [(Hc1 & H2) | [(Hc1 & Hc2 & H3) | (Hc1 & Hc2 & Hc3 & Ht & H4)]]].
    + rewrite H1. reflexivity.
    + destruct (proj1 (convertible_ToString rt _) Hc1) as (n & ->). simpl.
      rewrite H2. reflexivity.
    + destruct (proj1 (convertible_ToString rt _) Hc1) as (n & ->).
      destruct (proj1 (convertible_ToNumber rt _) Hc2) as (p & ->). simpl.
      rewrite H3. reflexivity.
    + destruct (proj1 (convertible_ToString rt _) Hc1) as (n & ->).
      destruct (proj1 (convertible_ToNumber rt _) Hc2) as (p & ->).
      destruct (proj1 (convertible_ToString rt _) Hc3) as (d & ->). simpl.
      unfold imageUrl_of. rewrite Ht, H4. reflexivity.
  - intros body e name' price' description' imageUrl'
      Hb Hn Hname Hprice Hdesc Hn' Hp' Hd' Hi' product Hput.
    unfold try_catch.
    rewrite (createProduct_converted rt event w body name' description' price' imageUrl'
               Hb Hn Hname Hprice Hdesc Hn' Hp' Hd' (imageUrl_of_spec rt _ _ Hi')).
    unfold bind, dynamoDb_put. simpl. fold product. rewrite Hput.
    eexists. split; [reflexivity |]. split; [reflexivity |].
    intros t. reflexivity.
Qed.

Lemma createProduct_failures_are_500_witness :
  handler RefRuntime.runtime Sample.post_product_no_body Sample.world
  = (Returned (respond RefRuntime.runtime 500
                 (error_details_body "Internal server error"
                    "Cannot destructure property 'name' of 'body' as it is null.")),
     Sample.world) /\
  handler RefRuntime.runtime Sample.post_product_object_name Sample.world
  = (Returned (respond RefRuntime.runtime 500
                 (error_details_body "Internal server error"
                    "Cannot convert object to primitive value")),
     draw_uuid Sample.world) /\
  exists w',
    handler RefRuntime.runtime Sample.post_product Sample.world_store_down
    = (Returned (respond RefRuntime.runtime 500
                   (error_details_body "Internal server error" "Service Unavailable")),
       w') /\
    same_tables Sample.world_store_down w'.
Proof.
  split; [| split].
  - exact (proj1 (createProduct_failures_are_500 RefRuntime.runtime
                    Sample.post_product_no_body Sample.world eq_refl eq_refl) eq_refl).
  - exact (proj1 (proj2 (createProduct_failures_are_500 RefRuntime.runtime
                           Sample.post_product_object_name Sample.world eq_refl eq_refl))
             (VObj [("name", Sample.unconvertible); ("price", VNum 10);
                    ("description", VStr "d")])
             cannot_convert eq_refl eq_refl eq_refl eq_refl eq_refl
             (or_introl eq_refl)).
  - destruct (proj2 (proj2 (createProduct_failures_are_500 RefRuntime.runtime
                              Sample.post_product Sample.world_store_down
                              eq_refl eq_refl))
                (VObj [("name", VStr "A"); ("price", VNum 10); ("description", VStr "d")])
                (mkExn "ServiceUnavailable" "Service Unavailable")
                "A" 10%float "d" VNull
                eq_refl eq_refl eq_refl eq_refl eq_refl eq_refl eq_refl eq_refl
                eq_refl eq_refl)
      as (w' & Hrun & _ & Hsame).
    exists w'. split; assumption.
Defined.

(** ** The body of an order *)

(** X5.  With a verified credential and a body that parses to a value
    other than [null], an [items] that is missing, is not an array, or is
    the empty array is answered 400 with the body
    [{error: "Items array is required"}]; the verifier was called and
    nothing else. *)
Theorem createOrder_items_required (rt : Runtime) (event : Event.t) (w : World)
    (token : string) (user : User) (body : value) :
  verified_credential event w token user ->
  JSON_parse rt (body_text event) = inr body ->
  is_nullish body = false ->
  (forall elems, prop body "items" = VArr elems -> elems = []) ->
  createOrder rt event w
  = (Returned (Response.mk 400 headers
                 (JSON_stringify rt (VObj [("error", VStr "Items array is required")]))),
     log (CallGetUser token) w).
Proof.
  intros (authHeader & Hh & Hp & -> & Hne & Hu) Hb Hn Hitems.
  rewrite (createOrder_with_bearer rt _ _ _ Hh Hp).
  apply try_catch_returned.
  apply (createOrder_try_items_required rt event w _ user body (prop body "items")
           Hne Hu Hb (destructure_prop _ _ Hn)).
  now apply not_an_array_fails.
Qed.

Lemma createOrder_items_required_witness :
  createOrder RefRuntime.runtime Sample.post_order_empty_items Sample.world
  = (Returned (Response.mk 400 headers
                 (JSON_stringify RefRuntime.runtime
                    (VObj [("error", VStr "Items array is required")]))),
     log (CallGetUser "tok-alice") Sample.world) /\
  createOrder RefRuntime.runtime Sample.post_order_no_items Sample.world
  = (Returned (Response.mk 400 headers
                 (JSON_stringify RefRuntime.runtime
                    (VObj [("error", VStr "Items array is required")]))),
     log (CallGetUser "tok-alice") Sample.world).
Proof.
  split.
  - apply (createOrder_items_required RefRuntime.runtime Sample.post_order_empty_items
             Sample.world "tok-alice" (mkUser "alice") (VObj [("items", VArr [])])).
    + exists "Bearer tok-alice". repeat split; try reflexivity; discriminate.
    + reflexivity.
    + reflexivity.
    + now intros elems [= <-].
  - apply (createOrder_items_required RefRuntime.runtime Sample.post_order_no_items
             Sample.world "tok-alice" (mkUser "alice") (VObj [])).
    + exists "Bearer tok-alice". repeat split; try reflexivity; discriminate.
    + reflexivity.
    + reflexivity.
    + discriminate.
Defined.

(** X6.  With a verified credential, a body that parses to [null], as the
    text [null] does and as a request without a body is read, is not
    answered 400: destructuring it throws inside the [try] block, and
    the answer is 401 with the body
    [{error: "Unauthorized", details: <message of the TypeError>}]. *)
Theorem createOrder_null_body_is_401 (rt : Runtime) (event : Event.t) (w : World)
    (token : string) (user : User) :
  verified_credential event w token user ->
  JSON_parse rt (body_text event) = inr VNull ->
  createOrder rt event w
  = (Returned (Response.mk 401 headers
                 (JSON_stringify rt
                    (VObj [("error", VStr "Unauthorized");
                           ("details",
                            VStr "Cannot destructure property 'items' of 'body' as it is null.")]))),
     log (CallGetUser token) w) /\
  (Event.body event = None -> body_text event = "null").
Proof.
  intros (authHeader & Hh & Hp & -> & Hne & Hu) Hb. split.
  - rewrite (createOrder_with_bearer rt _ _ _ Hh Hp).
    now rewrite (try_catch_thrown _ _ _ _ _
                   (createOrder_try_unread_items rt event w _ user VNull _ Hne Hu Hb eq_refl)).
  - unfold body_text. now intros ->.
Qed.

Lemma createOrder_null_body_is_401_witness :
  createOrder RefRuntime.runtime Sample.post_order_null_body Sample.world
  = (Returned (unauthorized RefRuntime.runtime
                 "Cannot destructure property 'items' of 'body' as it is null."),
     log (CallGetUser "tok-alice") Sample.world).
Proof.
  apply (createOrder_null_body_is_401 RefRuntime.runtime Sample.post_order_null_body
           Sample.world "tok-alice" (mkUser "alice")).
  - exists "Bearer tok-alice". repeat split; try reflexivity; discriminate.
  - reflexivity.
Defined.

(** ** The token *)

(** X7.  [verifyToken] returns only the user that Cognito gave for that
    very token, after exactly one call; it does not call Cognito with an
    empty token; and whatever goes wrong is thrown as an [Error] whose
    message is [Invalid token: ] followed by the cause. *)
Theorem verifyToken_outcomes (token : string) (w w' : World) (o : Outcome User) :
  verifyToken token w = (o, w') ->
  (exists user,
     o = Returned user /\ token <> "" /\ cognito_getUser w token = inr user /\
     w' = log (CallGetUser token) w) \/
  (token = "" /\ w' = w /\
   o = Thrown (mkExn "Error" "Invalid token: Error: No token provided")) \/
  (exists e,
     token <> "" /\ cognito_getUser w token = inl e /\
     w' = log (CallGetUser token) w /\
     o = Thrown (mkExn "Error" ("Invalid token: " ++ ExnToString e))).
Proof.
  intros H. destruct (String.eqb_spec token "") as [-> | Hne].
  - rewrite verifyToken_empty in H. injection H as <- <-. right. left. auto.
  - destruct (cognito_getUser w token) as [e | user] eqn:Hu.
    + rewrite (verifyToken_rejects _ _ _ Hne Hu) in H. injection H as <- <-.
      right. right. exists e. auto.
    + rewrite (verifyToken_accepts _ _ _ Hne Hu) in H. injection H as <- <-.
      left. exists user. auto.
Qed.

Lemma verifyToken_outcomes_witness :
  cognito_getUser Sample.world "tok-alice" = inr (mkUser "alice").
Proof.
  destruct (verifyToken_outcomes "tok-alice" Sample.world
              (log (CallGetUser "tok-alice") Sample.world) (Returned (mkUser "alice"))
              eq_refl)
    as [(user & Ho & _ & Hu & _) | [(_ & _ & Ho) | (e & _ & _ & _ & Ho)]].
  - injection Ho as <-. exact Hu.
  - discriminate Ho.
  - discriminate Ho.
Defined.

Lemma prefix_splits (p s : string) :
  String.prefix p s = true -> exists rest, s = p ++ rest.
Proof.
  revert s. induction p as [| a p IH]; intros s H.
  - exists s. reflexivity.
  - destruct s as [| b s]; [discriminate H |].
    change (String.prefix (String a p) (String b s))
      with (if ascii_dec a b then String.prefix p s else false) in H.
    destruct (ascii_dec a b) as [<- |]; [| discriminate H].
    destruct (IH s H) as (rest & ->). exists rest. reflexivity.
Qed.

Lemma startsWith_Bearer_inv (s : string) :
  startsWith s "Bearer " = true -> exists rest, s = "Bearer " ++ rest.
Proof.
  apply prefix_splits.
Qed.

Lemma drop_spaces_splits (s : string) :
  exists ws,
    s = ws ++ drop_spaces s /\ all_spaces ws = true /\
    starts_with_space (drop_spaces s) = false.
Proof.
  induction s as [| c s (ws & Hs & Hws & Hd)]; simpl.
  - exists "". auto.
  - destruct (is_space c) eqn:Hc.
    + exists (String c ws). simpl. rewrite Hc, Hws, <- Hs. auto.
    + exists "". simpl. auto.
Qed.

Lemma drop_all_spaces (ws : string) : all_spaces ws = true -> drop_spaces ws = "".
Proof.
  induction ws as [| c ws IH]; simpl; [reflexivity |].
  destruct (is_space c); [exact IH | discriminate].
Qed.

(** X8.  On a header that passed the prefix check, the replace takes away
    the scheme and the whole run of white space after it, and nothing
    else: the header is [Bearer], then white space, at least one, then
    the token, and the token does not start with white space. *)
Theorem strip_bearer_splits (authHeader : string) :
  startsWith authHeader "Bearer " = true ->
  exists ws,
    authHeader = "Bearer" ++ ws ++ strip_bearer authHeader /\
    ws <> "" /\ all_spaces ws = true /\
    starts_with_space (strip_bearer authHeader) = false.
Proof.
  intros H. destruct (startsWith_Bearer_inv _ H) as (rest & ->).
  change (strip_bearer ("Bearer " ++ rest)) with (drop_spaces rest).
  destruct (drop_spaces_splits rest) as (ws & Hs & Hws & Hd).
  exists (" " ++ ws). repeat split.
  - simpl. now rewrite <- Hs.
  - discriminate.
  - exact Hws.
  - exact Hd.
Qed.

Lemma strip_bearer_splits_witness :
  exists ws,
    "Bearer   tok-alice" = "Bearer" ++ ws ++ strip_bearer "Bearer   tok-alice" /\
    ws <> "" /\ all_spaces ws = true /\
    starts_with_space (strip_bearer "Bearer   tok-alice") = false.
Proof.
  exact (strip_bearer_splits "Bearer   tok-alice" eq_refl).
Defined.

(** X9.  A header that is the scheme followed by white space only passes
    the prefix check with an empty token: the answer is 401 with the
    details [Invalid token: Error: No token provided], and Cognito is not
    called. *)
Theorem createOrder_blank_token (rt : Runtime) (event : Event.t) (w : World)
    (ws : string) :
  authHeader_of event = Some ("Bearer " ++ ws) ->
  all_spaces ws = true ->
  createOrder rt event w
  = (Returned (Response.mk 401 headers
                 (JSON_stringify rt
                    (VObj [("error", VStr "Unauthorized");
                           ("details", VStr "Invalid token: Error: No token provided")]))),
     w).
Proof.
  intros Hh Hws.
  rewrite (createOrder_with_bearer rt _ _ _ Hh (startsWith_Bearer ws)).
  change (strip_bearer ("Bearer " ++ ws)) with (drop_spaces ws).
  rewrite (drop_all_spaces _ Hws).
  now rewrite (try_catch_thrown _ _ _ _ _ (createOrder_try_no_token rt event w)).
Qed.

Lemma createOrder_blank_token_witness :
  createOrder RefRuntime.runtime Sample.post_order_blank_token Sample.world
  = (Returned (unauthorized RefRuntime.runtime "Invalid token: Error: No token provided"),
     Sample.world).
Proof.
  exact (createOrder_blank_token RefRuntime.runtime Sample.post_order_blank_token
           Sample.world "  " eq_refl eq_refl).
Defined.

(** ** What a request may do to the store and to Cognito *)

(** X10.  No partial persistence: a request that is not answered 201
    leaves every table as it was, and a request that is answered 201 has
    added exactly one record, to the Product or to the Order table, and
    that record is the one its body serialises. *)
Theorem nothing_stored_unless_201 (rt : Runtime) (event : Event.t) (w : World) :
  exists r w',
    handler rt event w = (Returned r, w') /\
    ((Response.statusCode r <> 201%Z /\ same_tables w w') \/
     (Response.statusCode r = 201%Z /\
      exists t record,
        (t = PRODUCT_TABLE_NAME \/ t = ORDER_TABLE_NAME) /\
        Response.body r = JSON_stringify rt record /\
        one_more t record w w' /\
        In (CallPut t record) (calls w'))).
Proof.
  assert (Hmore : forall t record w1,
             same_tables w w1 -> one_more t record w (after_put t record w1)).
  { intros t record w1 Hsame t'. simpl.
    destruct (String.eqb_spec t' t) as [-> |]; now rewrite Hsame. }
  destruct (handler_runs rt event w) as (r & w' & Hrun & HR).
  exists r, w'. split; [exact Hrun |].
  destruct HR; simpl;
    try (left; split; [discriminate | intros t'; reflexivity]).
  - left. split; [| intros t'; reflexivity].
    intros ->. simpl in H. intuition discriminate.
  - left. split; [| intros t'; reflexivity].
    intros ->. simpl in H1. intuition discriminate.
  - right. split; [reflexivity |]. exists ORDER_TABLE_NAME, order.
    repeat split; auto. apply Hmore. intros t'. reflexivity.
  - right. split; [reflexivity |]. exists PRODUCT_TABLE_NAME, product.
    repeat split; auto. apply Hmore. intros t'. reflexivity.
Qed.

(** X11.  An order reaches the store only after Cognito has verified the
    token of the request, and the order carries the name Cognito gave as
    its [userId]: whenever a run of the dispatcher puts to the Order
    table, the request was POST [/orders]; its [Authorization] header
    passed the prefix check and the token is what the replace leaves of
    that header; the calls of the run are that put preceded by [getUser]
    on that token; and [getUser] answered with the owner. *)
Theorem order_put_needs_verification (rt : Runtime) (event : Event.t) (w : World) :
  exists r w' new,
    handler rt event w = (Returned r, w') /\
    calls w' = (new ++ calls w)%list /\
    forall order,
      In (CallPut ORDER_TABLE_NAME order) new ->
      exists authHeader token user,
        to_createOrder event /\
        authHeader_of event = Some authHeader /\
        startsWith authHeader "Bearer " = true /\
        token = strip_bearer authHeader /\
        token <> "" /\
        cognito_getUser w token = inr user /\
        prop order "userId" = VStr (Username user) /\
        new = [CallPut ORDER_TABLE_NAME order; CallGetUser token].
Proof.
  destruct (handler_runs rt event w) as (r & w' & Hrun & HR).
  exists r, w'.
  destruct HR as [ | | | | ? ? ? ? ? (authHeader & Hh & Hp & Ht & Hne & Hu) ?
                   | ? ? ? ? (authHeader & Hh & Hp & Ht & Hne & Hu) ? | | | | | ].
  - exists []. repeat split; auto. intros order [].
  - exists []. repeat split; auto. intros order [].
  - exists [CallGetUser token]. repeat split; auto.
    intros order [Hin | []]. discriminate Hin.
  - exists [CallGetUser token]. repeat split; auto.
    intros order [Hin | []]. discriminate Hin.
  - exists [CallPut ORDER_TABLE_NAME order; CallGetUser token]. repeat split; auto.
    intros order' [Hin | [Hin | []]]; [| discriminate Hin].
    injection Hin as <-. exists authHeader, token, user. auto 10.
  - exists [CallPut ORDER_TABLE_NAME order; CallGetUser token]. repeat split; auto.
    intros order' [Hin | [Hin | []]]; [| discriminate Hin].
    injection Hin as <-. exists authHeader, token, user. auto 10.
  - exists []. repeat split; auto. intros order [].
  - exists [CallPut PRODUCT_TABLE_NAME product]. repeat split; auto.
    intros order [Hin | []]. discriminate Hin.
  - exists [CallPut PRODUCT_TABLE_NAME product]. repeat split; auto.
    intros order [Hin | []]. discriminate Hin.
  - exists [CallScan t]. repeat split; auto. intros order [Hin | []]. discriminate Hin.
  - exists [CallScan t]. repeat split; auto. intros order [Hin | []]. discriminate Hin.
Qed.

(** X12.  A request makes at most two calls on the collaborators.  Only
    POST [/orders] calls Cognito; only a POST puts; only a GET scans. *)
Theorem calls_follow_the_route (rt : Runtime) (event : Event.t) (w : World) :
  exists r w' new,
    handler rt event w = (Returned r, w') /\
    calls w' = (new ++ calls w)%list /\
    List.length new <= 2 /\
    (forall token, In (CallGetUser token) new -> to_createOrder event) /\
    (forall t item, In (CallPut t item) new -> Event.httpMethod event = "POST") /\
    (forall t, In (CallScan t) new -> Event.httpMethod event = "GET").
Proof.
  destruct (handler_runs rt event w) as (r & w' & Hrun & HR).
  exists r, w'.
  destruct HR;
    [ exists [] | exists [] | exists [CallGetUser token] | exists [CallGetUser token]
    | exists [CallPut ORDER_TABLE_NAME order; CallGetUser token]
    | exists [CallPut ORDER_TABLE_NAME order; CallGetUser token]
    | exists []
    | exists [CallPut PRODUCT_TABLE_NAME product]
    | exists [CallPut PRODUCT_TABLE_NAME product]
    | exists [CallScan t] | exists [CallScan t] ];
    (split; [exact Hrun |]); (split; [reflexivity |]); (split; [simpl; lia |]);
    (split; [| split]); intros; simpl in *;
    repeat match goal with
           | H : _ \/ _ |- _ => destruct H
           | H : False |- _ => destruct H
           end;
    try discriminate; auto;
    match goal with H : to_createOrder _ |- _ => exact (proj1 H) end.
Qed.

(** ** Quantities that are not numbers *)

Lemma is_nan_Prim2SF (x : float) :
  PrimFloat.is_nan x = true <-> Prim2SF x = S754_nan.
Proof.
  unfold PrimFloat.is_nan. rewrite FloatAxioms.eqb_spec.
  destruct (Prim2SF x) as [s | s | | s m e]; simpl.
  - split; discriminate.
  - destruct s; simpl; split; discriminate.
  - split; reflexivity.
  - unfold SFeqb, SFcompare. rewrite Z.compare_refl, Pos.compare_cont_refl.
    destruct s; simpl; split; discriminate.
Qed.

Lemma nan_not_le (x y : float) : PrimFloat.is_nan x = true -> PrimFloat.leb x y = false.
Proof.
  intros H. apply is_nan_Prim2SF in H. rewrite FloatAxioms.leb_spec, H. reflexivity.
Qed.

Lemma mul_nan (x y : float) :
  PrimFloat.is_nan y = true -> PrimFloat.is_nan (PrimFloat.mul x y) = true.
Proof.
  intros H. apply is_nan_Prim2SF in H. apply is_nan_Prim2SF.
  rewrite FloatAxioms.mul_spec, H. unfold SF64mul, SFmul.
  destruct (Prim2SF x) as [s | s | | s m e]; reflexivity.
Qed.

(** X13.  The validation loop does not ask that a quantity be a number.
    A quantity that is truthy and converts to [NaN], as a word does, or a
    plain object with no [toString] of its own, is not [<= 0]: the item
    passes, and when its identifier and price convert, the record built
    from it has [NaN] as its quantity and as its total price. *)
Theorem quantity_need_not_be_a_number (rt : Runtime) (item : value) (quantity : float) :
  is_nullish item = false ->
  ToBoolean (prop item "id") = true ->
  ToBoolean (prop item "quantity") = true ->
  ToNumber rt (prop item "quantity") = inr quantity ->
  PrimFloat.is_nan quantity = true ->
  item_rejected rt item = inr false /\
  (convertible rt (prop item "id") -> convertible rt (prop item "price") ->
   exists record total,
     normalize_item rt item = inr record /\
     prop record "quantity" = VNum quantity /\
     prop record "totalPrice" = VNum total /\ PrimFloat.is_nan total = true).
Proof.
  intros Hn Hid Hq Hquantity Hnan.
  assert (Hacc : item_rejected rt item = inr false).
  { rewrite (item_rejected_readable rt _ Hn), Hid, Hq. unfold js_le_num.
    rewrite Hquantity. simpl. now rewrite (nan_not_le _ _ Hnan). }
  split; [exact Hacc |].
  intros Hcid Hcprice.
  destruct (normalize_item_returns rt item Hacc Hcid Hcprice) as (record & Hrecord).
  pose proof (proj1 (normalize_item_record rt _ _ Hn) Hrecord)
    as (id & quantity' & price & _ & Hq' & _ & ->).
  rewrite Hquantity in Hq'. injection Hq' as <-.
  eexists. eexists. split; [exact Hrecord |].
  split; [reflexivity |]. split; [reflexivity |].
  now apply mul_nan.
Qed.

Lemma quantity_need_not_be_a_number_witness :
  item_rejected RefRuntime.runtime (VObj [("id", VStr "p1"); ("quantity", VStr "many")])
  = inr false /\
  item_rejected RefRuntime.runtime (VObj [("id", VStr "p1"); ("quantity", VObj [])])
  = inr false /\
  item_rejected RefRuntime.runtime
    (VObj [("id", VStr "p1"); ("quantity", Sample.unconvertible)])
  = inl cannot_convert.
Proof.
  split; [| split].
  - exact (proj1 (quantity_need_not_be_a_number RefRuntime.runtime
                    (VObj [("id", VStr "p1"); ("quantity", VStr "many")]) nan
                    eq_refl eq_refl eq_refl eq_refl eq_refl)).
  - exact (proj1 (quantity_need_not_be_a_number RefRuntime.runtime
                    (VObj [("id", VStr "p1"); ("quantity", VObj [])]) nan
                    eq_refl eq_refl eq_refl eq_refl eq_refl)).
  - reflexivity.
Defined.
